(** * Prakvedaa CRM backend: a model of the request handlers of [app/main.py]

    The handlers of the FastAPI application are embedded as functions in a
    small state-and-exception monad over the three tables of the database
    ([users], [patients], [consultations]).  The libraries the application
    calls into (passlib, python-jose, the system clock and the random token
    generator) are parameters of the development. *)

From Stdlib Require Import List String Ascii ZArith Bool Lia Permutation Sorted.
Import ListNotations.

Local Open Scope string_scope.
Local Open Scope Z_scope.

(** ** Python strings

    A [str] is modelled by the sequence of its UTF-8 bytes.  The case and
    white-space operations act on the ASCII range, which is where e-mail
    addresses, tokens and phone numbers live. *)

Module Py.

Definition string_of_codes (l : list nat) : string :=
  string_of_list_ascii (List.map ascii_of_nat l).

(** [bool(s)] for a string: the empty string is falsy. *)
Definition truthy (s : string) : bool :=
  match s with
  | EmptyString => false
  | String _ _ => true
  end.

(** [bool(x)] for an optional string: [None] and [""] are falsy. *)
Definition truthy_opt (x : option string) : bool :=
  match x with
  | None => false
  | Some s => truthy s
  end.

Definition lower_char (c : ascii) : ascii :=
  let n := nat_of_ascii c in
  if (Nat.leb 65 n && Nat.leb n 90)%bool then ascii_of_nat (n + 32) else c.

(** [s.lower()] *)
Fixpoint lower (s : string) : string :=
  match s with
  | EmptyString => EmptyString
  | String c r => String (lower_char c) (lower r)
  end.

(** The ASCII characters for which [str.isspace] holds:
    tab, line feed, vertical tab, form feed, carriage return,
    the four separators 0x1c-0x1f and the space. *)
Definition isspace (c : ascii) : bool :=
  let n := nat_of_ascii c in
  ((Nat.leb 9 n && Nat.leb n 13) || (Nat.leb 28 n && Nat.leb n 32))%bool.

Fixpoint lstrip (s : string) : string :=
  match s with
  | EmptyString => EmptyString
  | String c r => if isspace c then lstrip r else s
  end.

Fixpoint rstrip (s : string) : string :=
  match s with
  | EmptyString => EmptyString
  | String c r =>
      let r' := rstrip r in
      if (isspace c && negb (truthy r'))%bool then EmptyString else String c r'
  end.

(** [s.strip()] *)
Definition strip (s : string) : string := rstrip (lstrip s).

(** [s.startswith(p)] *)
Fixpoint startswith (p s : string) : bool :=
  match p, s with
  | EmptyString, _ => true
  | String a p', String b s' => (Ascii.eqb a b && startswith p' s')%bool
  | String _ _, EmptyString => false
  end.

(** [s.split()]: the maximal runs of non-space characters. *)
Fixpoint split (s : string) : list string :=
  match s with
  | EmptyString => []
  | String c r =>
      if isspace c then split r
      else
        match r with
        | EmptyString => [String c EmptyString]
        | String c' _ =>
            if isspace c' then String c EmptyString :: split r
            else
              match split r with
              | w :: ws => String c w :: ws
              | [] => [String c EmptyString]
              end
        end
  end.

(** [s.replace(old, new)] where [old] is a single character. *)
Fixpoint replace (old : ascii) (new : string) (s : string) : string :=
  match s with
  | EmptyString => EmptyString
  | String c r =>
      if Ascii.eqb c old then new ++ replace old new r
      else String c (replace old new r)
  end.

(** *** [urllib.parse.quote_plus] *)

Definition hex_digit (n : nat) : ascii :=
  if Nat.ltb n 10 then ascii_of_nat (48 + n) else ascii_of_nat (55 + n).

(** Letters, digits and [_.-~] are never quoted. *)
Definition always_safe (c : ascii) : bool :=
  let n := nat_of_ascii c in
  ((Nat.leb 65 n && Nat.leb n 90) || (Nat.leb 97 n && Nat.leb n 122)
   || (Nat.leb 48 n && Nat.leb n 57)
   || Nat.eqb n 95 || Nat.eqb n 46 || Nat.eqb n 45 || Nat.eqb n 126)%bool.

Definition quote_byte (c : ascii) : string :=
  if always_safe c then String c EmptyString
  else if Ascii.eqb c " " then "+"
  else
    let n := nat_of_ascii c in
    String "%" (String (hex_digit (Nat.div n 16))
                 (String (hex_digit (Nat.modulo n 16)) EmptyString)).

Fixpoint quote_plus (s : string) : string :=
  match s with
  | EmptyString => EmptyString
  | String c r => quote_byte c ++ quote_plus r
  end.

End Py.

(** ** The data model ([app/models.py])

    Integer columns are [Z], nullable columns are options, and a
    [DateTime] is a number of seconds since the epoch. *)

Definition datetime := Z.
Definition timedelta := Z.

Module User.
Record t := mk {
  id : Z;
  name : string;
  email : string;
  password_hash : string;
  role : string;
  created_at : datetime
}.
End User.

Module Patient.
Record t := mk {
  id : Z;
  name : string;
  age : option Z;
  contact : option string;
  notes : option string;
  created_by : string;
  assigned_doctor_email : option string;
  created_at : datetime
}.

(** [patient.assigned_doctor_email = e] *)
Definition set_assigned_doctor_email (e : option string) (p : t) : t :=
  mk (id p) (name p) (age p) (contact p) (notes p) (created_by p) e
     (created_at p).
End Patient.

Module Consultation.
Record t := mk {
  id : Z;
  patient_id : Z;
  video_url : string;
  scheduled_at : option datetime;
  created_by : string;
  status : option string;
  doctor_notes : option string;
  created_at : datetime
}.

(** [consultation.doctor_notes = n] *)
Definition set_doctor_notes (n : option string) (c : t) : t :=
  mk (id c) (patient_id c) (video_url c) (scheduled_at c) (created_by c)
     (status c) n (created_at c).

(** [consultation.status = s] *)
Definition set_status (s : option string) (c : t) : t :=
  mk (id c) (patient_id c) (video_url c) (scheduled_at c) (created_by c)
     s (doctor_notes c) (created_at c).
End Consultation.

(** The database: one list of rows per table, in insertion order. *)
Record DB := mkDB {
  users : list User.t;
  patients : list Patient.t;
  consultations : list Consultation.t
}.

Definition empty_db : DB := mkDB [] [] [].

(** ** Request and response models ([app/schemas.py]) *)

(** [Literal["sales", "doctor", "admin"]] *)
Inductive Role := Sales | Doctor | Admin.

Definition role_str (r : Role) : string :=
  match r with
  | Sales => "sales"
  | Doctor => "doctor"
  | Admin => "admin"
  end.

Record RegisterUser := {
  ru_name : string;
  ru_email : string;
  ru_password : string;
  ru_role : Role
}.

Record LoginRequest := {
  lr_email : string;
  lr_password : string
}.

Record TokenResponse := {
  access_token : string;
  token_type : string;
  authorization : string
}.

Record PatientCreate := {
  pc_name : string;
  pc_age : option Z;
  pc_contact : option string;
  pc_notes : option string
}.

Record AssignPatientRequest := {
  ap_patient_id : Z;
  ap_doctor_email : string
}.

Record ScheduleConsultationRequest := {
  sc_patient_id : Z;
  sc_scheduled_at : option datetime
}.

Record ConsultationShareRequest := {
  consultation_id : Z;
  phone_e164 : option string
}.

Record ConsultationShareResponse := {
  message : string
}.

Record WhatsAppLinkResponse := {
  wa_link : string
}.

(** What [HTTPBearer] hands to the handler when an Authorization header is
    present. *)
Record HTTPAuthorizationCredentials := {
  scheme : string;
  credentials : string
}.

(** ** Exceptions and the handler monad *)

Inductive exn :=
| HTTPException (status_code : nat) (detail : string)
| IntegrityError
| AttributeError (what : string).

Inductive result (A : Type) :=
| Ok (a : A)
| Raise (e : exn).
Arguments Ok {A} a.
Arguments Raise {A} e.

(** A handler reads and writes the database and either returns a value or
    raises; the second component is the database as committed when the
    handler ends. *)
Definition M (A : Type) : Type := DB -> result A * DB.

Definition ret {A} (a : A) : M A := fun db => (Ok a, db).

Definition raise {A} (e : exn) : M A := fun db => (Raise e, db).

Definition bind {A B} (m : M A) (k : A -> M B) : M B :=
  fun db =>
    match m db with
    | (Ok a, db') => k a db'
    | (Raise e, db') => (Raise e, db')
    end.

(** [try: m  except: h] *)
Definition try_except {A} (m : M A) (h : exn -> M A) : M A :=
  fun db =>
    match m db with
    | (Ok a, db') => (Ok a, db')
    | (Raise e, db') => h e db'
    end.

Definition query {A} (f : DB -> A) : M A := fun db => (Ok (f db), db).

Definition commit (f : DB -> DB) : M unit := fun db => (Ok tt, f db).

Declare Scope handler_scope.
Delimit Scope handler_scope with handler.
Notation "x <- m ;; k" := (bind m (fun x => k))
  (at level 61, m at next level, right associativity) : handler_scope.
Notation "m ;;; k" := (bind m (fun _ => k))
  (at level 61, right associativity) : handler_scope.

(** ** Queries *)

(** The next value of an [INTEGER PRIMARY KEY]: one more than the largest
    key in the table, 1 for an empty table. *)
Definition next_id (ids : list Z) : Z :=
  1 + fold_right Z.max 0 ids.

(** [.filter(...).first()] *)
Definition first {A} (cond : A -> bool) (rows : list A) : option A :=
  find cond rows.

(** [.order_by(key.desc())], as an insertion sort on the key. *)
Fixpoint insert_desc {A} (key : A -> Z) (x : A) (l : list A) : list A :=
  match l with
  | [] => [x]
  | y :: r => if key y <? key x then x :: l else y :: insert_desc key x r
  end.

Fixpoint order_by_desc {A} (key : A -> Z) (l : list A) : list A :=
  match l with
  | [] => []
  | x :: r => insert_desc key x (order_by_desc key r)
  end.

(** A column compared with a value in a [filter]: a NULL never matches. *)
Definition col_eq (col : option string) (v : string) : bool :=
  match col with
  | None => false
  | Some s => String.eqb s v
  end.

Definition user_by_email (e : string) (db : DB) : option User.t :=
  first (fun u => String.eqb (User.email u) e) (users db).

Definition patient_by_id (i : Z) (db : DB) : option Patient.t :=
  first (fun p => Patient.id p =? i) (patients db).

Definition consultation_by_id (i : Z) (db : DB) : option Consultation.t :=
  first (fun c => Consultation.id c =? i) (consultations db).

(** Writing back a row that was loaded by its primary key. *)
Definition update_patient (p : Patient.t) (db : DB) : DB :=
  mkDB (users db)
       (List.map (fun q => if Patient.id q =? Patient.id p then p else q)
                 (patients db))
       (consultations db).

Definition update_consultation_row (c : Consultation.t) (db : DB) : DB :=
  mkDB (users db) (patients db)
       (List.map
          (fun q => if Consultation.id q =? Consultation.id c then c else q)
          (consultations db)).

(** Python's [x != y] between an optional column and a string. *)
Definition opt_neq (x : option string) (y : string) : bool :=
  match x with
  | None => true
  | Some s => negb (String.eqb s y)
  end.

(** The e-mail normalisation used by register, login and assign:
    [email.lower().strip()]. *)
Definition normalize_email (e : string) : string := Py.strip (Py.lower e).

(** Constants of [app/utils.py]. *)
Definition SECRET_KEY : string := "your_secret_key_here_change_later".
Definition ALGORITHM : string := "HS256".
Definition ACCESS_TOKEN_EXPIRE_MINUTES : Z := 60.

(** [timedelta(minutes=m)] *)
Definition minutes (m : Z) : timedelta := 60 * m.

(** Values of the claims of a token. *)
Inductive claim :=
| CStr (s : string)
| CTime (t : datetime).

(** [d.update({k: v})] on a dictionary kept as an association list. *)
Fixpoint dict_update {V} (k : string) (v : V) (d : list (string * V))
  : list (string * V) :=
  match d with
  | [] => [(k, v)]
  | (k', v') :: r =>
      if String.eqb k' k then (k, v) :: r else (k', v') :: dict_update k v r
  end.

(** [d.get(k)] *)
Fixpoint dict_get {V} (k : string) (d : list (string * V)) : option V :=
  match d with
  | [] => None
  | (k', v) :: r => if String.eqb k' k then Some v else dict_get k r
  end.

(** ** Writes *)

(** [db.add(user); db.commit()]: the unique index on [users.email] makes
    the commit fail when the address is already present; nothing is
    written in that case. *)
Definition insert_user (u : User.t) : M unit :=
  fun db =>
    if existsb (fun v => String.eqb (User.email v) (User.email u)) (users db)
    then (Raise IntegrityError, db)
    else (Ok tt, mkDB (users db ++ [u]) (patients db) (consultations db)).

Definition insert_patient (p : Patient.t) : M unit :=
  commit (fun db => mkDB (users db) (patients db ++ [p]) (consultations db)).

Definition insert_consultation (c : Consultation.t) : M unit :=
  commit (fun db => mkDB (users db) (patients db) (consultations db ++ [c])).

(** The fixed pieces of text of the shared message, as the bytes of the
    source file. *)
Definition link_mark : string :=
  Py.string_of_codes [239; 163; 191; 195; 188; 195; 174; 195; 179]%nat.
Definition doctor_mark : string :=
  Py.string_of_codes
    [239; 163; 191; 195; 188; 195; 171; 194; 174; 226; 128; 154; 195; 132;
     195; 167; 226; 128; 154; 195; 182; 195; 175; 195; 148; 226; 136; 143;
     195; 168]%nat.
Definition time_mark : string :=
  Py.string_of_codes [239; 163; 191; 195; 188; 195; 175; 195; 173]%nat.
Definition sent_mark : string :=
  Py.string_of_codes [226; 128; 154; 195; 132; 195; 174]%nat.

Definition newline : string := String (ascii_of_nat 10) EmptyString.

(** [x or default] for an optional string. *)
Definition or_default (x : option string) (d : string) : string :=
  match x with
  | Some s => if Py.truthy s then s else d
  | None => d
  end.

(** ** A small instance

    Stand-ins for the libraries and a database with one user of each role,
    one patient assigned to the doctor and one consultation, on which the
    handlers can be run. *)

Module Sample.

Definition hash_password (salt plain : string) : string :=
  salt ++ "$" ++ plain.

Definition verify_password (plain hashed : string) : bool :=
  String.eqb hashed ("s$" ++ plain).

Definition jwt_encode (claims : list (string * claim)) (key alg : string)
  : string :=
  match dict_get "sub" claims with
  | Some (CStr s) => "tok:" ++ s
  | _ => EmptyString
  end.

Definition jwt_decode (token key : string) (algs : list string)
  (now : datetime) : option (list (string * string)) :=
  if Py.startswith "tok:" token
  then Some [("sub", substring 4 (String.length token - 4) token)]
  else None.

Definition isoformat (t : datetime) : string := "1970-01-01T00:00:00".

Definition bearer (e : string) : option HTTPAuthorizationCredentials :=
  Some {| scheme := "Bearer"; credentials := "tok:" ++ e |}.

Definition sal : User.t :=
  User.mk 1 "Sal" "sal@x.org" "s$secret1" "sales" 0.
Definition doc : User.t :=
  User.mk 2 "Doc" "doc@x.org" "s$secret2" "doctor" 0.
Definition adm : User.t :=
  User.mk 3 "Adm" "adm@x.org" "s$secret3" "admin" 0.

Definition pat : Patient.t :=
  Patient.mk 1 "Pat" (Some 30) (Some "+91 98765 43210") None "sal@x.org"
             (Some "doc@x.org") 0.

Definition con : Consultation.t :=
  Consultation.mk 1 1 "https://meet.jit.si/Prakvedaa-abc" None "doc@x.org"
                  (Some "pending") None 0.

Definition db : DB := mkDB [sal; doc; adm] [pat] [con].

Definition reg_sal : RegisterUser :=
  {| ru_name := "Sal"; ru_email := " Sal@X.org "; ru_password := "secret1";
     ru_role := Sales |}.
Definition reg_doc : RegisterUser :=
  {| ru_name := "Doc"; ru_email := "doc@x.org"; ru_password := "secret2";
     ru_role := Doctor |}.
Definition reg_adm : RegisterUser :=
  {| ru_name := "Adm"; ru_email := "adm@x.org"; ru_password := "secret3";
     ru_role := Admin |}.
Definition new_pat : PatientCreate :=
  {| pc_name := "Pat"; pc_age := Some 30;
     pc_contact := Some "+91 98765 43210"; pc_notes := None |}.
Definition assign_pat : AssignPatientRequest :=
  {| ap_patient_id := 1; ap_doctor_email := "Doc@x.org" |}.
Definition sched_pat : ScheduleConsultationRequest :=
  {| sc_patient_id := 1; sc_scheduled_at := None |}.
Definition share_con : ConsultationShareRequest :=
  {| consultation_id := 1; phone_e164 := None |}.

End Sample.

(** ** The handlers ([app/main.py]) *)

Section Handlers.

Local Open Scope handler_scope.

(** passlib: hashing draws a salt, verification is a test. *)
Variable hash_password : string -> string -> string.
Variable verify_password : string -> string -> bool.

(** python-jose: [jwt.encode(claims, key, algorithm)] and
    [jwt.decode(token, key, algorithms)] at a given time; decoding gives
    the string claims of the payload, or nothing when the signature is
    wrong or the token has expired. *)
Variable jwt_encode : list (string * claim) -> string -> string -> string.
Variable jwt_decode :
  string -> string -> list string -> datetime -> option (list (string * string)).

(** [datetime.isoformat] *)
Variable isoformat : datetime -> string.

(** [create_access_token] of [app/utils.py]; a zero [expires_delta] is
    falsy and gives the default validity. *)
Definition create_access_token (now : datetime) (data : list (string * claim))
  (expires_delta : option timedelta) : string :=
  let to_encode := data in
  let delta :=
    match expires_delta with
    | Some d => if d =? 0 then minutes ACCESS_TOKEN_EXPIRE_MINUTES else d
    | None => minutes ACCESS_TOKEN_EXPIRE_MINUTES
    end in
  let expire := now + delta in
  let to_encode := dict_update "exp" (CTime expire) to_encode in
  jwt_encode to_encode SECRET_KEY ALGORITHM.

Definition get_current_user (now : datetime)
  (creds : option HTTPAuthorizationCredentials) : M User.t :=
  match creds with
  | None => raise (HTTPException 401 "Missing or invalid token")
  | Some c =>
      if negb (Py.truthy (scheme c))
      then raise (HTTPException 401 "Missing or invalid token")
      else
        let token := Py.strip (credentials c) in
        let token :=
          if Py.startswith "bearer " (Py.lower token)
          then last (Py.split token) EmptyString
          else token in
        match jwt_decode token SECRET_KEY [ALGORITHM] now with
        | None => raise (HTTPException 401 "Invalid or expired token")
        | Some payload =>
            let user_email := dict_get "sub" payload in
            if negb (Py.truthy_opt user_email)
            then raise (HTTPException 401 "Invalid token payload")
            else
              user <- query (user_by_email (or_default user_email "")) ;;
              match user with
              | None => raise (HTTPException 401 "User not found")
              | Some u => ret u
              end
        end
  end.

Definition register (now : datetime) (salt : string) (payload : RegisterUser)
  : M User.t :=
  ids <- query (fun db => List.map User.id (users db)) ;;
  let user :=
    User.mk (next_id ids)
            (ru_name payload)
            (normalize_email (ru_email payload))
            (hash_password salt (ru_password payload))
            (role_str (ru_role payload))
            now in
  try_except
    (insert_user user ;;; ret user)
    (fun e =>
       match e with
       | IntegrityError =>
           raise (HTTPException 400 "Email already registered")
       | _ => raise e
       end).

Definition login (now : datetime) (payload : LoginRequest) : M TokenResponse :=
  user <- query (user_by_email (normalize_email (lr_email payload))) ;;
  match user with
  | None => raise (HTTPException 400 "Invalid email or password")
  | Some u =>
      if negb (verify_password (lr_password payload) (User.password_hash u))
      then raise (HTTPException 400 "Invalid email or password")
      else
        let access_token :=
          create_access_token now
            [("sub", CStr (User.email u)); ("role", CStr (User.role u))]
            (Some (minutes 60)) in
        ret {| access_token := access_token;
               token_type := "bearer";
               authorization := "Bearer " ++ access_token |}
  end.

Definition create_patient (now : datetime)
  (creds : option HTTPAuthorizationCredentials) (payload : PatientCreate)
  : M Patient.t :=
  current_user <- get_current_user now creds ;;
  if negb (String.eqb (User.role current_user) "sales")
  then raise (HTTPException 403 "Only sales role can create patients")
  else
    ids <- query (fun db => List.map Patient.id (patients db)) ;;
    let patient :=
      Patient.mk (next_id ids) (pc_name payload) (pc_age payload)
                 (pc_contact payload) (pc_notes payload)
                 (User.email current_user) None now in
    insert_patient patient ;;;
    ret patient.

Definition list_patients (now : datetime)
  (creds : option HTTPAuthorizationCredentials) : M (list Patient.t) :=
  current_user <- get_current_user now creds ;;
  if String.eqb (User.role current_user) "sales"
  then query (fun db => order_by_desc Patient.id (patients db))
  else if String.eqb (User.role current_user) "doctor"
  then
    query (fun db =>
      order_by_desc Patient.id
        (filter (fun p => col_eq (Patient.assigned_doctor_email p)
                                 (User.email current_user))
                (patients db)))
  else raise (HTTPException 403 "Role not permitted").

Definition assign_patient (now : datetime)
  (creds : option HTTPAuthorizationCredentials)
  (payload : AssignPatientRequest) : M Patient.t :=
  current_user <- get_current_user now creds ;;
  if negb (String.eqb (User.role current_user) "sales")
  then raise (HTTPException 403 "Only sales can assign patients")
  else
    patient <- query (patient_by_id (ap_patient_id payload)) ;;
    match patient with
    | None => raise (HTTPException 404 "Patient not found")
    | Some patient =>
        doctor <- query (user_by_email
                           (normalize_email (ap_doctor_email payload))) ;;
        match doctor with
        | None =>
            raise (HTTPException 400 "Doctor email invalid or not a doctor")
        | Some doctor =>
            if negb (String.eqb (User.role doctor) "doctor")
            then
              raise (HTTPException 400 "Doctor email invalid or not a doctor")
            else
              let patient :=
                Patient.set_assigned_doctor_email
                  (Some (User.email doctor)) patient in
              commit (update_patient patient) ;;;
              ret patient
        end
    end.

Definition schedule_consultation (now : datetime) (token_urlsafe : string)
  (creds : option HTTPAuthorizationCredentials)
  (payload : ScheduleConsultationRequest) : M Consultation.t :=
  current_user <- get_current_user now creds ;;
  patient <- query (patient_by_id (sc_patient_id payload)) ;;
  match patient with
  | None => raise (HTTPException 404 "Patient not found")
  | Some patient =>
      if (String.eqb (User.role current_user) "doctor"
          && opt_neq (Patient.assigned_doctor_email patient)
                     (User.email current_user))%bool
      then raise (HTTPException 403 "Doctor not assigned to this patient")
      else if negb (String.eqb (User.role current_user) "sales"
                    || String.eqb (User.role current_user) "doctor")%bool
      then raise (HTTPException 403 "Not allowed to schedule consultations")
      else
        let room_name := "Prakvedaa-" ++ token_urlsafe in
        let video_url := "https://meet.jit.si/" ++ room_name in
        ids <- query (fun db => List.map Consultation.id (consultations db)) ;;
        let consultation :=
          Consultation.mk (next_id ids) (Patient.id patient) video_url
                          (sc_scheduled_at payload) (User.email current_user)
                          (Some "pending") None now in
        insert_consultation consultation ;;;
        ret consultation
  end.

(** The consultations of the join with the patients assigned to [e]. *)
Definition joined_assigned (e : string) (db : DB) : list Consultation.t :=
  filter
    (fun c =>
       existsb
         (fun p => (Patient.id p =? Consultation.patient_id c)
                   && col_eq (Patient.assigned_doctor_email p) e)%bool
         (patients db))
    (consultations db).

Definition list_consultations (now : datetime)
  (creds : option HTTPAuthorizationCredentials) : M (list Consultation.t) :=
  current_user <- get_current_user now creds ;;
  if String.eqb (User.role current_user) "sales"
  then query (fun db => order_by_desc Consultation.id (consultations db))
  else if String.eqb (User.role current_user) "doctor"
  then
    query (fun db =>
      order_by_desc Consultation.id
        (joined_assigned (User.email current_user) db))
  else raise (HTTPException 403 "Role not permitted").

(** [cons.scheduled_at.isoformat() if cons.scheduled_at else "Now"],
    with [cns] for the source's [cons]. *)
Definition when_str (cns : Consultation.t) : string :=
  match Consultation.scheduled_at cns with
  | Some t => isoformat t
  | None => "Now"
  end.

Definition share_message (now : datetime)
  (creds : option HTTPAuthorizationCredentials)
  (payload : ConsultationShareRequest) : M ConsultationShareResponse :=
  current_user <- get_current_user now creds ;;
  cns <- query (consultation_by_id (consultation_id payload)) ;;
  match cns with
  | None => raise (HTTPException 404 "Consultation not found")
  | Some cns =>
      patient <- query (patient_by_id (Consultation.patient_id cns)) ;;
      match patient with
      | None => raise (HTTPException 404 "Patient not found")
      | Some patient =>
          if (String.eqb (User.role current_user) "doctor"
              && opt_neq (Patient.assigned_doctor_email patient)
                         (User.email current_user))%bool
          then
            raise (HTTPException 403 "Not allowed to share this consultation")
          else
            let doc_str :=
              or_default (Patient.assigned_doctor_email patient) "TBD" in
            let msg :=
              "Hello " ++ Patient.name patient
                ++ ", your video consultation is scheduled." ++ newline
                ++ link_mark ++ " Link: " ++ Consultation.video_url cns
                ++ newline
                ++ doctor_mark ++ " Doctor: " ++ doc_str ++ newline
                ++ time_mark ++ " Time: " ++ when_str cns ++ newline
                ++ sent_mark ++ " Sent by " ++ User.email current_user in
            ret {| message := msg |}
      end
  end.

Definition whatsapp_link (now : datetime)
  (creds : option HTTPAuthorizationCredentials)
  (payload : ConsultationShareRequest) : M WhatsAppLinkResponse :=
  current_user <- get_current_user now creds ;;
  cns <- query (consultation_by_id (consultation_id payload)) ;;
  match cns with
  | None => raise (HTTPException 404 "Consultation not found")
  | Some cns =>
      patient <- query (patient_by_id (Consultation.patient_id cns)) ;;
      match patient with
      | None => raise (HTTPException 404 "Patient not found")
      | Some patient =>
          if (String.eqb (User.role current_user) "doctor"
              && opt_neq (Patient.assigned_doctor_email patient)
                         (User.email current_user))%bool
          then
            raise (HTTPException 403 "Not allowed to share this consultation")
          else
            let doc_str :=
              or_default (Patient.assigned_doctor_email patient) "TBD" in
            let msg :=
              "Hello " ++ Patient.name patient
                ++ ", your video consultation is scheduled." ++ newline
                ++ "Link: " ++ Consultation.video_url cns ++ newline
                ++ "Doctor: " ++ doc_str ++ newline
                ++ "Time: " ++ when_str cns in
            let encoded := Py.quote_plus msg in
            let phone :=
              if Py.truthy_opt (phone_e164 payload) then phone_e164 payload
              else if Py.truthy_opt (Patient.contact patient)
              then
                option_map
                  (fun c => Py.replace " " "" (Py.replace "+" "" c))
                  (Patient.contact patient)
              else None in
            match phone with
            | None =>
                raise (HTTPException 400
                         "No phone provided and patient.contact empty")
            | Some phone =>
                if negb (Py.truthy phone)
                then
                  raise (HTTPException 400
                           "No phone provided and patient.contact empty")
                else
                  let wa :=
                    "https://wa.me/" ++ phone ++ "?text=" ++ encoded in
                  ret {| wa_link := wa |}
            end
      end
  end.

Definition whatsapp_send_direct (now : datetime)
  (creds : option HTTPAuthorizationCredentials)
  (payload : ConsultationShareRequest) : M WhatsAppLinkResponse :=
  current_user <- get_current_user now creds ;;
  cns <- query (consultation_by_id (consultation_id payload)) ;;
  match cns with
  | None => raise (HTTPException 404 "Consultation not found")
  | Some cns =>
      patient <- query (patient_by_id (Consultation.patient_id cns)) ;;
      match patient with
      | None => raise (HTTPException 404 "Patient not found")
      | Some patient =>
          if (String.eqb (User.role current_user) "doctor"
              && opt_neq (Patient.assigned_doctor_email patient)
                         (User.email current_user))%bool
          then
            raise (HTTPException 403 "Not allowed to share this consultation")
          else
            let doc_str :=
              or_default (Patient.assigned_doctor_email patient) "TBD" in
            let msg :=
              "Hello " ++ Patient.name patient
                ++ ", your video consultation is scheduled." ++ newline
                ++ "Link: " ++ Consultation.video_url cns ++ newline
                ++ "Doctor: " ++ doc_str ++ newline
                ++ "Time: " ++ when_str cns in
            let encoded := Py.quote_plus msg in
            let phone :=
              if Py.truthy_opt (phone_e164 payload) then phone_e164 payload
              else if Py.truthy_opt (Patient.contact patient)
              then
                option_map
                  (fun c => Py.replace " " "" (Py.replace "+" "" c))
                  (Patient.contact patient)
              else None in
            match phone with
            | None =>
                raise (HTTPException 400
                         "No phone provided and patient.contact empty")
            | Some phone =>
                if negb (Py.truthy phone)
                then
                  raise (HTTPException 400
                           "No phone provided and patient.contact empty")
                else
                  let wa :=
                    "https://wa.me/" ++ phone ++ "?text=" ++ encoded in
                  ret {| wa_link := wa |}
            end
      end
  end.

Definition list_users (now : datetime) (role : option string)
  (creds : option HTTPAuthorizationCredentials) : M (list User.t) :=
  current_user <- get_current_user now creds ;;
  query (fun db =>
    let q := users db in
    let q :=
      match role with
      | Some r =>
          if Py.truthy r
          then filter (fun u => String.eqb (User.role u) r) q
          else q
      | None => q
      end in
    order_by_desc User.id q).

Definition update_consultation (now : datetime)
  (creds : option HTTPAuthorizationCredentials)
  (consultation_id : Z) (notes : option string) (status : option string)
  : M Consultation.t :=
  current_user <- get_current_user now creds ;;
  consultation <- query (consultation_by_id consultation_id) ;;
  match consultation with
  | None => raise (HTTPException 404 "Consultation not found")
  | Some consultation =>
      patient <- query (patient_by_id (Consultation.patient_id consultation)) ;;
      denied <-
        (if String.eqb (User.role current_user) "doctor"
         then
           match patient with
           | None =>
               raise (AttributeError
                        "'NoneType' object has no attribute 'assigned_doctor_email'")
           | Some patient =>
               ret (opt_neq (Patient.assigned_doctor_email patient)
                            (User.email current_user))
           end
         else ret false) ;;
      if (denied : bool)
      then
        raise (HTTPException 403 "Not allowed to update this consultation")
      else
        let consultation :=
          match notes with
          | Some n =>
              Consultation.set_doctor_notes
                (if Py.truthy n then Some (Py.strip n)
                 else Consultation.doctor_notes consultation)
                consultation
          | None => consultation
          end in
        let consultation :=
          match status with
          | Some s => Consultation.set_status (Some (Py.lower s)) consultation
          | None => consultation
          end in
        commit (update_consultation_row consultation) ;;;
        ret consultation
  end.

(** ** The API as a transition system *)

Inductive Request :=
| ReqRegister (salt : string) (payload : RegisterUser)
| ReqLogin (payload : LoginRequest)
| ReqCreatePatient (creds : option HTTPAuthorizationCredentials)
    (payload : PatientCreate)
| ReqListPatients (creds : option HTTPAuthorizationCredentials)
| ReqAssignPatient (creds : option HTTPAuthorizationCredentials)
    (payload : AssignPatientRequest)
| ReqScheduleConsultation (token_urlsafe : string)
    (creds : option HTTPAuthorizationCredentials)
    (payload : ScheduleConsultationRequest)
| ReqListConsultations (creds : option HTTPAuthorizationCredentials)
| ReqShareMessage (creds : option HTTPAuthorizationCredentials)
    (payload : ConsultationShareRequest)
| ReqWhatsappLink (creds : option HTTPAuthorizationCredentials)
    (payload : ConsultationShareRequest)
| ReqSendWhatsapp (creds : option HTTPAuthorizationCredentials)
    (payload : ConsultationShareRequest)
| ReqListUsers (role : option string)
    (creds : option HTTPAuthorizationCredentials)
| ReqUpdateConsultation (creds : option HTTPAuthorizationCredentials)
    (consultation_id : Z) (notes : option string) (status : option string).

(** The database after the request [r], received at time [now], has been
    served. *)
Definition serve (now : datetime) (r : Request) (db : DB) : DB :=
  match r with
  | ReqRegister salt p => snd (register now salt p db)
  | ReqLogin p => snd (login now p db)
  | ReqCreatePatient c p => snd (create_patient now c p db)
  | ReqListPatients c => snd (list_patients now c db)
  | ReqAssignPatient c p => snd (assign_patient now c p db)
  | ReqScheduleConsultation t c p => snd (schedule_consultation now t c p db)
  | ReqListConsultations c => snd (list_consultations now c db)
  | ReqShareMessage c p => snd (share_message now c p db)
  | ReqWhatsappLink c p => snd (whatsapp_link now c p db)
  | ReqSendWhatsapp c p => snd (whatsapp_send_direct now c p db)
  | ReqListUsers r c => snd (list_users now r c db)
  | ReqUpdateConsultation c i n s => snd (update_consultation now c i n s db)
  end.

(** The states reachable from the empty database. *)
Inductive reachable : DB -> Prop :=
| reachable_empty : reachable empty_db
| reachable_serve now r db :
    reachable db -> reachable (serve now r db).

(** ** Properties of states and callers *)

(** Every assignment names a registered user whose role is doctor. *)
Definition assignments_valid (db : DB) : Prop :=
  forall p e,
    In p (patients db) ->
    Patient.assigned_doctor_email p = Some e ->
    exists u, user_by_email e db = Some u /\ User.role u = "doctor".

(** What one request can do to the database: nothing, add a user, add an
    unassigned patient, assign a patient to a user found by its address
    with role doctor, or write to the consultations table only. *)
Inductive effect (db : DB) : DB -> Prop :=
| effect_none : effect db db
| effect_user u :
    effect db (mkDB (users db ++ [u])%list (patients db) (consultations db))
| effect_patient p :
    Patient.assigned_doctor_email p = None ->
    effect db (mkDB (users db) (patients db ++ [p])%list (consultations db))
| effect_assign p d :
    user_by_email (User.email d) db = Some d ->
    User.role d = "doctor" ->
    effect db
      (update_patient
         (Patient.set_assigned_doctor_email (Some (User.email d)) p) db)
| effect_consultations l :
    effect db (mkDB (users db) (patients db) l).

(** No user is removed or altered: the users table only grows at its
    end. *)
Definition users_kept (db db' : DB) : Prop :=
  exists l, users db' = (users db ++ l)%list.

(** The callers the access policy names for an existing consultation:
    any sales user, and the doctor the patient is assigned to. *)
Definition policy_permits (u : User.t) (p : Patient.t) : Prop :=
  User.role u = "sales"
  \/ (User.role u = "doctor"
      /\ Patient.assigned_doctor_email p = Some (User.email u)).

(** The text both WhatsApp handlers encode. *)
Definition whatsapp_text (cns : Consultation.t) (patient : Patient.t)
  : string :=
  "Hello " ++ Patient.name patient
    ++ ", your video consultation is scheduled." ++ newline
    ++ "Link: " ++ Consultation.video_url cns ++ newline
    ++ "Doctor: " ++ or_default (Patient.assigned_doctor_email patient) "TBD"
    ++ newline
    ++ "Time: " ++ when_str cns.

(** A string without its [+] and space characters. *)
Fixpoint without_plus_space (s : string) : string :=
  match s with
  | EmptyString => EmptyString
  | String c r =>
      if (Ascii.eqb c "+" || Ascii.eqb c " ")%bool
      then without_plus_space r
      else String c (without_plus_space r)
  end.

(** What one request writes, in full: nothing; a user with a new,
    normalised address, one of the three roles and the next id; an
    unassigned patient created by a sales user, with the next id; the
    assignment of a stored patient to a stored doctor; a pending
    consultation for a stored patient, created by a sales user or a doctor,
    with the next id; or new notes and status for a stored consultation. *)
Inductive change (db : DB) : DB -> Prop :=
| change_none : change db db
| change_register u :
    user_by_email (User.email u) db = None ->
    normalize_email (User.email u) = User.email u ->
    (exists r, User.role u = role_str r) ->
    User.id u = next_id (List.map User.id (users db)) ->
    change db (mkDB (users db ++ [u])%list (patients db) (consultations db))
| change_create_patient p u :
    user_by_email (Patient.created_by p) db = Some u ->
    User.role u = "sales" ->
    Patient.id p = next_id (List.map Patient.id (patients db)) ->
    Patient.assigned_doctor_email p = None ->
    change db (mkDB (users db) (patients db ++ [p])%list (consultations db))
| change_assign p d :
    In p (patients db) ->
    user_by_email (User.email d) db = Some d ->
    User.role d = "doctor" ->
    change db
      (update_patient
         (Patient.set_assigned_doctor_email (Some (User.email d)) p) db)
| change_schedule c p u :
    patient_by_id (Consultation.patient_id c) db = Some p ->
    user_by_email (Consultation.created_by c) db = Some u ->
    User.role u = "sales" \/ User.role u = "doctor" ->
    Consultation.id c
    = next_id (List.map Consultation.id (consultations db)) ->
    change db (mkDB (users db) (patients db) (consultations db ++ [c])%list)
| change_update c c' :
    In c (consultations db) ->
    Consultation.id c' = Consultation.id c ->
    Consultation.patient_id c' = Consultation.patient_id c ->
    Consultation.created_by c' = Consultation.created_by c ->
    change db (update_consultation_row c' db).

(** The keys of the three tables are unique, and so are the addresses of
    the users, which are stored normalised, with one of the three roles. *)
Definition keys_unique (db : DB) : Prop :=
  NoDup (List.map User.id (users db))
  /\ NoDup (List.map User.email (users db))
  /\ NoDup (List.map Patient.id (patients db))
  /\ NoDup (List.map Consultation.id (consultations db))
  /\ (forall u, In u (users db) ->
        normalize_email (User.email u) = User.email u
        /\ exists r, User.role u = role_str r).

(** Every reference between rows resolves: the patient of a consultation
    is stored, the creator of a patient is a stored sales user, the
    creator of a consultation is a stored sales user or doctor. *)
Definition references_resolve (db : DB) : Prop :=
  (forall c, In c (consultations db) ->
     exists p, patient_by_id (Consultation.patient_id c) db = Some p)
  /\ (forall p, In p (patients db) ->
        exists u, user_by_email (Patient.created_by p) db = Some u
                  /\ User.role u = "sales")
  /\ (forall c, In c (consultations db) ->
        exists u, user_by_email (Consultation.created_by c) db = Some u
                  /\ (User.role u = "sales" \/ User.role u = "doctor")).

(** ** Sorting and lookup lemmas *)

Lemma insert_desc_perm {A} (key : A -> Z) (x : A) (l : list A) :
  Permutation (insert_desc key x l) (x :: l).
Proof.
  induction l as [|y r IH]; simpl.
  - apply Permutation_refl.
  - destruct (key y <? key x).
    + apply Permutation_refl.
    + eapply perm_trans; [apply perm_skip, IH | apply perm_swap].
Qed.

Lemma order_by_desc_perm {A} (key : A -> Z) (l : list A) :
  Permutation (order_by_desc key l) l.
Proof.
  induction l as [|x r IH]; simpl.
  - apply perm_nil.
  - eapply perm_trans; [apply insert_desc_perm | apply perm_skip, IH].
Qed.

Lemma insert_desc_sorted {A} (key : A -> Z) (x : A) (l : list A) :
  StronglySorted (fun a b => key b <= key a) l ->
  StronglySorted (fun a b => key b <= key a) (insert_desc key x l).
Proof.
  induction l as [|y r IH]; simpl; intros Hs.
  - constructor; constructor.
  - inversion Hs as [|? ? Hr Hy]; subst.
    destruct (Z.ltb_spec (key y) (key x)) as [Hlt|Hge].
    + constructor; [exact Hs|].
      constructor; [lia|].
      rewrite Forall_forall in *. intros z Hz. specialize (Hy z Hz). lia.
    + constructor; [apply IH; exact Hr|].
      rewrite Forall_forall in *. intros z Hz.
      apply (Permutation_in _ (insert_desc_perm key x r)) in Hz.
      destruct Hz as [<-|Hz]; [lia | apply Hy; exact Hz].
Qed.

Lemma order_by_desc_sorted {A} (key : A -> Z) (l : list A) :
  StronglySorted (fun a b => key b <= key a) (order_by_desc key l).
Proof.
  induction l as [|x r IH]; simpl.
  - constructor.
  - apply insert_desc_sorted, IH.
Qed.

Lemma first_app {A} (f : A -> bool) (l l' : list A) (x : A) :
  first f l = Some x -> first f (l ++ l') = Some x.
Proof.
  unfold first. induction l as [|y r IH]; simpl; [discriminate|].
  destruct (f y); [trivial | exact IH].
Qed.

Lemma user_by_email_email (e : string) (db : DB) (u : User.t) :
  user_by_email e db = Some u -> User.email u = e.
Proof.
  unfold user_by_email, first. intros H.
  apply find_some in H. destruct H as [_ H].
  apply String.eqb_eq in H. exact H.
Qed.

Lemma user_by_email_self (e : string) (db : DB) (u : User.t) :
  user_by_email e db = Some u -> user_by_email (User.email u) db = Some u.
Proof.
  intros H. rewrite (user_by_email_email _ _ _ H). exact H.
Qed.


(** The replacement chain of the WhatsApp handlers removes exactly the
    [+] and space characters. *)
Lemma replace_plus_space (s : string) :
  Py.replace " " "" (Py.replace "+" "" s) = without_plus_space s.
Proof.
  induction s as [|c r IH]; simpl; [reflexivity|].
  destruct (Ascii.eqb_spec c "+") as [->|Hp]; simpl.
  - exact IH.
  - destruct (Ascii.eqb_spec c " ") as [->|Hs]; simpl.
    + exact IH.
    + rewrite IH. reflexivity.
Qed.

Lemma truthy_true (s : string) : Py.truthy s = true <-> s <> "".
Proof.
  destruct s; simpl; split; congruence.
Qed.

(** ** Authentication *)

Lemma get_current_user_db now creds db :
  snd (get_current_user now creds db) = db.
Proof.
  unfold get_current_user.
  destruct creds as [c|]; [|reflexivity].
  destruct (Py.truthy (scheme c)); [|reflexivity]. cbv zeta.
  destruct (jwt_decode _ _ _ _) as [payload|]; [|reflexivity].
  destruct (Py.truthy_opt (dict_get "sub" payload)); [|reflexivity].
  unfold bind, query, negb.
  destruct (user_by_email _ db); reflexivity.
Qed.

Lemma authenticated_run now creds db u :
  fst (get_current_user now creds db) = Ok u ->
  get_current_user now creds db = (Ok u, db).
Proof.
  intros H. rewrite (surjective_pairing (get_current_user now creds db)).
  rewrite H, get_current_user_db. reflexivity.
Qed.

(** The caller a token resolves to is a row of the users table. *)
Lemma authenticated_registered now creds db u :
  fst (get_current_user now creds db) = Ok u ->
  user_by_email (User.email u) db = Some u.
Proof.
  unfold get_current_user.
  destruct creds as [c|]; [|discriminate].
  destruct (Py.truthy (scheme c)); [|discriminate]. cbv zeta.
  destruct (jwt_decode _ _ _ _) as [payload|]; [|discriminate].
  destruct (Py.truthy_opt (dict_get "sub" payload)); [|discriminate].
  unfold bind, query, negb.
  destruct (user_by_email _ db) as [v|] eqn:E; [|discriminate].
  simpl. intros [= <-]. eapply user_by_email_self, E.
Qed.

(** Running a handler under a caller that authenticates. *)
Lemma bind_caller {B} now creds db u (k : User.t -> M B) :
  fst (get_current_user now creds db) = Ok u ->
  bind (get_current_user now creds) k db = k u db.
Proof.
  intros H. unfold bind. rewrite (authenticated_run _ _ _ _ H). reflexivity.
Qed.

Lemma bind_query {A B} (f : DB -> A) (k : A -> M B) db :
  bind (query f) k db = k (f db) db.
Proof. reflexivity. Qed.

Ltac as_caller H :=
  rewrite !(bind_caller _ _ _ _ _ H); cbv beta.

(** ** Listing patients *)

(** C2 -- listing patients: a sales caller receives every patient of the
    registry, a doctor receives exactly the patients whose
    [assigned_doctor_email] is the doctor's own address (so neither an
    unassigned patient nor one assigned to somebody else), and a caller of
    any other role is refused with 403. *)
Theorem list_patients_visibility now creds db u :
  fst (get_current_user now creds db) = Ok u ->
  (User.role u = "sales" ->
     exists l, list_patients now creds db = (Ok l, db)
               /\ Permutation l (patients db))
  /\ (User.role u = "doctor" ->
     exists l, list_patients now creds db = (Ok l, db)
               /\ (forall p, In p l <->
                     In p (patients db)
                     /\ Patient.assigned_doctor_email p = Some (User.email u)))
  /\ (User.role u <> "sales" -> User.role u <> "doctor" ->
     list_patients now creds db
     = (Raise (HTTPException 403 "Role not permitted"), db)).
Proof.
  intros H. unfold list_patients. as_caller H.
  split; [|split].
  - intros ->. simpl. eexists. split; [reflexivity|].
    apply order_by_desc_perm.
  - intros ->. simpl. eexists. split; [reflexivity|].
    intros p. split.
    + intros Hin.
      apply (Permutation_in _ (order_by_desc_perm _ _)) in Hin.
      apply filter_In in Hin. destruct Hin as [Hin Hc]. split; [exact Hin|].
      unfold col_eq in Hc.
      destruct (Patient.assigned_doctor_email p) as [e|]; [|discriminate].
      apply String.eqb_eq in Hc. congruence.
    + intros [Hin Ha].
      apply (Permutation_in _ (Permutation_sym (order_by_desc_perm _ _))).
      apply filter_In. split; [exact Hin|].
      rewrite Ha. simpl. apply String.eqb_refl.
  - intros Hs Hd.
    apply String.eqb_neq in Hs. apply String.eqb_neq in Hd.
    rewrite Hs, Hd. reflexivity.
Qed.

(** ** Listing users *)

(** C10 -- listing users asks for nothing more than a token of a
    registered user: whatever the caller's role, the handler returns the
    registered users (those of the requested role when the query parameter
    is a non-empty string, all of them otherwise) by descending id, and so
    never answers 403. *)
Theorem list_users_any_role now role creds db u :
  fst (get_current_user now creds db) = Ok u ->
  exists l,
    list_users now role creds db = (Ok l, db)
    /\ StronglySorted (fun a b => User.id b <= User.id a) l
    /\ ((role = None \/ role = Some "") -> Permutation l (users db))
    /\ (forall r, role = Some r -> r <> "" ->
          Permutation l
            (filter (fun v => String.eqb (User.role v) r) (users db))).
Proof.
  intros H. unfold list_users. as_caller H. unfold query.
  eexists. split; [reflexivity|]. split; [apply order_by_desc_sorted|].
  split.
  - intros [->| ->]; apply order_by_desc_perm.
  - intros r -> Hr. apply truthy_true in Hr. rewrite Hr.
    apply order_by_desc_perm.
Qed.

(** ** Registration and login *)




Lemma register_rejects now salt payload db :
  existsb (fun v => String.eqb (User.email v)
                               (normalize_email (ru_email payload)))
          (users db) = true ->
  register now salt payload db
  = (Raise (HTTPException 400 "Email already registered"), db).
Proof.
  intros H. unfold register. rewrite bind_query.
  unfold try_except, bind, insert_user. simpl User.email.
  rewrite H. reflexivity.
Qed.


(** ** The WhatsApp handlers *)

(** C9 -- [whatsapp_link] and [whatsapp_send_direct] agree on every
    request and every database: same link or same exception, same
    database afterwards. *)
Theorem whatsapp_link_send_equal now creds payload db :
  whatsapp_link now creds payload db
  = whatsapp_send_direct now creds payload db.
Proof.
  unfold whatsapp_link, whatsapp_send_direct, bind.
  destruct (get_current_user now creds db) as [[u|e] db1]; [|reflexivity].
  destruct (query (consultation_by_id (consultation_id payload)) db1)
    as [[[c|]|e] db2]; try reflexivity.
Qed.

(** The link both handlers build once the phone number is known. *)
Lemma whatsapp_link_permitted now creds payload db u c p :
  fst (get_current_user now creds db) = Ok u ->
  consultation_by_id (consultation_id payload) db = Some c ->
  patient_by_id (Consultation.patient_id c) db = Some p ->
  policy_permits u p ->
  whatsapp_link now creds payload db
  = (let phone :=
       if Py.truthy_opt (phone_e164 payload) then phone_e164 payload
       else if Py.truthy_opt (Patient.contact p)
       then option_map without_plus_space (Patient.contact p)
       else None in
     match phone with
     | None =>
         Raise (HTTPException 400 "No phone provided and patient.contact empty")
     | Some ph =>
         if Py.truthy ph
         then Ok {| wa_link := "https://wa.me/" ++ ph ++ "?text="
                               ++ Py.quote_plus (whatsapp_text c p) |}
         else
           Raise (HTTPException 400
                    "No phone provided and patient.contact empty")
     end, db).
Proof.
  intros H Hc Hp Hperm. unfold whatsapp_link. as_caller H.
  rewrite bind_query, Hc, bind_query, Hp.
  assert (Hguard :
    (String.eqb (User.role u) "doctor"
     && opt_neq (Patient.assigned_doctor_email p) (User.email u))%bool
    = false).
  { destruct Hperm as [Hs|[Hd Ha]].
    - rewrite Hs. reflexivity.
    - rewrite Ha. simpl. rewrite String.eqb_refl. apply andb_false_r. }
  rewrite Hguard. cbv zeta. fold (whatsapp_text c p).
  destruct (Py.truthy_opt (phone_e164 payload)).
  - destruct (phone_e164 payload) as [ph|]; [|reflexivity].
    destruct (Py.truthy ph); reflexivity.
  - destruct (Py.truthy_opt (Patient.contact p)); [|reflexivity].
    destruct (Patient.contact p) as [ct|]; simpl; [|reflexivity].
    rewrite replace_plus_space.
    destruct (Py.truthy (without_plus_space ct)); reflexivity.
Qed.

(** C7 -- the phone number of the WhatsApp link, for a permitted caller, an
    existing consultation and its patient: a non-empty override is used as
    it is; without one, the patient's contact with its [+] and space
    characters removed is used (so "+91 98765 43210" gives the destination
    919876543210); when neither gives a non-empty number the handler
    raises 400 and returns no link. *)
Theorem whatsapp_link_phone now creds payload db u c p :
  fst (get_current_user now creds db) = Ok u ->
  consultation_by_id (consultation_id payload) db = Some c ->
  patient_by_id (Consultation.patient_id c) db = Some p ->
  policy_permits u p ->
  (forall ph, phone_e164 payload = Some ph -> ph <> "" ->
     whatsapp_link now creds payload db
     = (Ok {| wa_link := "https://wa.me/" ++ ph ++ "?text="
                         ++ Py.quote_plus (whatsapp_text c p) |}, db))
  /\ (phone_e164 payload = None \/ phone_e164 payload = Some "" ->
      forall ct, Patient.contact p = Some ct ->
        without_plus_space ct <> "" ->
        whatsapp_link now creds payload db
        = (Ok {| wa_link := "https://wa.me/" ++ without_plus_space ct
                            ++ "?text="
                            ++ Py.quote_plus (whatsapp_text c p) |}, db))
  /\ (phone_e164 payload = None \/ phone_e164 payload = Some "" ->
      Patient.contact p = Some "+91 98765 43210" ->
      whatsapp_link now creds payload db
      = (Ok {| wa_link := "https://wa.me/919876543210?text="
                          ++ Py.quote_plus (whatsapp_text c p) |}, db))
  /\ (phone_e164 payload = None \/ phone_e164 payload = Some "" ->
      Patient.contact p = None
      \/ (exists ct, Patient.contact p = Some ct
                     /\ without_plus_space ct = "") ->
      whatsapp_link now creds payload db
      = (Raise (HTTPException 400
                  "No phone provided and patient.contact empty"), db)).
Proof.
  intros H Hc Hp Hperm.
  rewrite (whatsapp_link_permitted _ _ _ _ _ _ _ H Hc Hp Hperm).
  assert (Habsent :
    phone_e164 payload = None \/ phone_e164 payload = Some "" ->
    Py.truthy_opt (phone_e164 payload) = false).
  { intros [->| ->]; reflexivity. }
  assert (Hcontact : forall ct,
    Patient.contact p = Some ct -> without_plus_space ct <> "" ->
    Py.truthy_opt (Patient.contact p) = true).
  { intros ct -> Hne. destruct ct; [exfalso; apply Hne; reflexivity|].
    reflexivity. }
  split; [|split; [|split]].
  - intros ph -> Hne. apply truthy_true in Hne.
    cbv zeta. cbn [Py.truthy_opt]. rewrite Hne. cbv beta iota.
    rewrite Hne. reflexivity.
  - intros Ho ct Hct Hne. cbv zeta.
    rewrite (Habsent Ho), (Hcontact ct Hct Hne), Hct. cbn [option_map].
    cbv beta iota. apply truthy_true in Hne. rewrite Hne. reflexivity.
  - intros Ho Hct. cbv zeta.
    rewrite (Habsent Ho), Hct. reflexivity.
  - intros Ho Hct. cbv zeta. rewrite (Habsent Ho).
    destruct Hct as [->|[ct [-> Hz]]]; [reflexivity|].
    destruct (Py.truthy_opt (Some ct)); [|reflexivity].
    cbn [option_map]. cbv beta iota. rewrite Hz. reflexivity.
Qed.

(** ** Assigning a patient *)


(** ** Updating a consultation *)



(** ** The assignment invariant *)

Lemma bind_caller_cases {B} now creds db (k : User.t -> M B) :
  bind (get_current_user now creds) k db
  = match fst (get_current_user now creds db) with
    | Ok u => k u db
    | Raise e => (Raise e, db)
    end.
Proof.
  unfold bind. pose proof (get_current_user_db now creds db) as Hdb.
  destruct (get_current_user now creds db) as [[u|e] db']; simpl in *;
    subst; reflexivity.
Qed.

Lemma register_effect now salt payload db :
  effect db (snd (register now salt payload db)).
Proof.
  unfold register. rewrite bind_query.
  unfold try_except, bind, insert_user.
  destruct (existsb _ (users db)); cbn [snd]; constructor.
Qed.

Lemma create_patient_effect now creds payload db :
  effect db (snd (create_patient now creds payload db)).
Proof.
  unfold create_patient. rewrite bind_caller_cases.
  destruct (fst (get_current_user now creds db)) as [u|e];
    [|apply effect_none].
  destruct (String.eqb (User.role u) "sales"); cbn [negb];
    [|apply effect_none].
  rewrite bind_query. unfold bind, insert_patient, commit, ret. cbn [snd].
  apply effect_patient. reflexivity.
Qed.

Lemma assign_patient_effect now creds payload db :
  effect db (snd (assign_patient now creds payload db)).
Proof.
  unfold assign_patient. rewrite bind_caller_cases.
  destruct (fst (get_current_user now creds db)) as [u|e];
    [|apply effect_none].
  destruct (String.eqb (User.role u) "sales"); cbn [negb];
    [|apply effect_none].
  rewrite bind_query.
  destruct (patient_by_id _ db) as [p|]; [|apply effect_none].
  rewrite bind_query.
  destruct (user_by_email _ db) as [d|] eqn:Hd; [|apply effect_none].
  destruct (String.eqb (User.role d) "doctor") eqn:Hr; cbn [negb];
    [|apply effect_none].
  unfold bind, commit, ret. cbn [snd].
  apply effect_assign.
  - eapply user_by_email_self, Hd.
  - apply String.eqb_eq, Hr.
Qed.

Lemma schedule_consultation_effect now tok creds payload db :
  effect db (snd (schedule_consultation now tok creds payload db)).
Proof.
  unfold schedule_consultation. rewrite bind_caller_cases.
  destruct (fst (get_current_user now creds db)) as [u|e];
    [|apply effect_none].
  rewrite bind_query.
  destruct (patient_by_id _ db) as [p|]; [|apply effect_none].
  destruct (_ && _)%bool; [apply effect_none|].
  destruct (negb _); [apply effect_none|].
  cbv zeta. rewrite bind_query.
  unfold bind, insert_consultation, commit, ret. cbn [snd].
  apply effect_consultations.
Qed.

Lemma update_consultation_effect now creds cid notes status db :
  effect db (snd (update_consultation now creds cid notes status db)).
Proof.
  unfold update_consultation. rewrite bind_caller_cases.
  destruct (fst (get_current_user now creds db)) as [u|e];
    [|apply effect_none].
  rewrite bind_query.
  destruct (consultation_by_id cid db) as [c|]; [|apply effect_none].
  rewrite bind_query. unfold bind at 1.
  destruct (String.eqb (User.role u) "doctor").
  - destruct (patient_by_id _ db) as [p|]; [|apply effect_none].
    unfold ret at 1.
    destruct (opt_neq _ _); [apply effect_none|].
    unfold bind, commit, ret. cbn [snd]. apply effect_consultations.
  - unfold ret at 1. unfold bind, commit, ret. cbn [snd].
    apply effect_consultations.
Qed.

Lemma login_db now payload db : snd (login now payload db) = db.
Proof.
  unfold login. rewrite bind_query.
  destruct (user_by_email _ db) as [u|]; [|reflexivity].
  destruct (verify_password _ _); reflexivity.
Qed.

Lemma list_patients_db now creds db : snd (list_patients now creds db) = db.
Proof.
  unfold list_patients. rewrite bind_caller_cases.
  destruct (fst (get_current_user now creds db)) as [u|e]; [|reflexivity].
  destruct (String.eqb (User.role u) "sales"); [reflexivity|].
  destruct (String.eqb (User.role u) "doctor"); reflexivity.
Qed.

Lemma list_consultations_db now creds db :
  snd (list_consultations now creds db) = db.
Proof.
  unfold list_consultations. rewrite bind_caller_cases.
  destruct (fst (get_current_user now creds db)) as [u|e]; [|reflexivity].
  destruct (String.eqb (User.role u) "sales"); [reflexivity|].
  destruct (String.eqb (User.role u) "doctor"); reflexivity.
Qed.

Lemma list_users_db now role creds db :
  snd (list_users now role creds db) = db.
Proof.
  unfold list_users. rewrite bind_caller_cases.
  destruct (fst (get_current_user now creds db)) as [u|e]; reflexivity.
Qed.

Lemma share_message_db now creds payload db :
  snd (share_message now creds payload db) = db.
Proof.
  unfold share_message. rewrite bind_caller_cases.
  destruct (fst (get_current_user now creds db)) as [u|e]; [|reflexivity].
  rewrite bind_query.
  destruct (consultation_by_id _ db) as [c|]; [|reflexivity].
  rewrite bind_query.
  destruct (patient_by_id _ db) as [p|]; [|reflexivity].
  destruct (_ && _)%bool; reflexivity.
Qed.

Lemma whatsapp_link_db now creds payload db :
  snd (whatsapp_link now creds payload db) = db.
Proof.
  unfold whatsapp_link. rewrite bind_caller_cases.
  destruct (fst (get_current_user now creds db)) as [u|e]; [|reflexivity].
  rewrite bind_query.
  destruct (consultation_by_id _ db) as [c|]; [|reflexivity].
  rewrite bind_query.
  destruct (patient_by_id _ db) as [p|]; [|reflexivity].
  destruct (_ && _)%bool; [reflexivity|]. cbv zeta.
  match goal with
  | |- snd (match ?x with _ => _ end _) = _ => destruct x as [ph|]
  end; [|reflexivity].
  destruct (Py.truthy ph); reflexivity.
Qed.

Lemma whatsapp_send_direct_db now creds payload db :
  snd (whatsapp_send_direct now creds payload db) = db.
Proof.
  unfold whatsapp_send_direct. rewrite bind_caller_cases.
  destruct (fst (get_current_user now creds db)) as [u|e]; [|reflexivity].
  rewrite bind_query.
  destruct (consultation_by_id _ db) as [c|]; [|reflexivity].
  rewrite bind_query.
  destruct (patient_by_id _ db) as [p|]; [|reflexivity].
  destruct (_ && _)%bool; [reflexivity|]. cbv zeta.
  match goal with
  | |- snd (match ?x with _ => _ end _) = _ => destruct x as [ph|]
  end; [|reflexivity].
  destruct (Py.truthy ph); reflexivity.
Qed.

Lemma serve_effect now r db : effect db (serve now r db).
Proof.
  destruct r; cbn [serve].
  - apply register_effect.
  - rewrite login_db. apply effect_none.
  - apply create_patient_effect.
  - rewrite list_patients_db. apply effect_none.
  - apply assign_patient_effect.
  - apply schedule_consultation_effect.
  - rewrite list_consultations_db. apply effect_none.
  - rewrite share_message_db. apply effect_none.
  - rewrite whatsapp_link_db. apply effect_none.
  - rewrite whatsapp_send_direct_db. apply effect_none.
  - rewrite list_users_db. apply effect_none.
  - apply update_consultation_effect.
Qed.

Lemma effect_users_kept db db' : effect db db' -> users_kept db db'.
Proof.
  intros [ |u|p Hp|p d Hd Hr|l]; unfold users_kept; cbn [users update_patient].
  - exists []. symmetry. apply app_nil_r.
  - exists [u]. reflexivity.
  - exists []. symmetry. apply app_nil_r.
  - exists []. symmetry. apply app_nil_r.
  - exists []. symmetry. apply app_nil_r.
Qed.

Lemma effect_assignments_valid db db' :
  effect db db' -> assignments_valid db -> assignments_valid db'.
Proof.
  intros [ |u|p0 Hp0|p0 d Hd Hr|l] Hv; unfold assignments_valid in *.
  - exact Hv.
  - cbn [patients]. intros p e Hin He.
    destruct (Hv p e Hin He) as [v [Hf Hrole]].
    exists v. split; [|exact Hrole].
    unfold user_by_email in *. cbn [users]. apply first_app, Hf.
  - cbn [patients]. intros p e Hin He.
    apply in_app_or in Hin. destruct Hin as [Hin|[<-|[]]].
    + exact (Hv p e Hin He).
    + congruence.
  - intros p e Hin He. unfold update_patient in Hin. cbn [patients] in Hin.
    apply in_map_iff in Hin. destruct Hin as [q [Hq Hin]].
    change (user_by_email e (update_patient
              (Patient.set_assigned_doctor_email (Some (User.email d)) p0) db))
      with (user_by_email e db).
    destruct (Patient.id q =? _).
    + subst p. cbn in He. injection He as <-. exists d. split; assumption.
    + subst q. exact (Hv p e Hin He).
  - exact Hv.
Qed.

(** C3 -- in every state reachable from the empty database through the
    API, every patient with an assigned doctor address names a registered
    user whose role is doctor; every request keeps the users table as it
    was up to new rows at its end (no user is deleted, no role changes), and
    so every request preserves the property. *)
Theorem assignments_valid_reachable db :
  reachable db ->
  assignments_valid db
  /\ (forall now r,
        users_kept db (serve now r db)
        /\ assignments_valid (serve now r db)).
Proof.
  intros Hreach.
  assert (Hv : assignments_valid db).
  { induction Hreach as [|now r db Hreach IH].
    - intros p e [].
    - eapply effect_assignments_valid; [apply serve_effect | exact IH]. }
  split; [exact Hv|].
  intros now r. split.
  - apply effect_users_kept, serve_effect.
  - eapply effect_assignments_valid; [apply serve_effect | exact Hv].
Qed.

(** * Further properties of the handlers *)

(** ** E-mail normalisation *)

Lemma isspace_lower_char (c : ascii) :
  Py.isspace (Py.lower_char c) = Py.isspace c.
Proof.
  destruct c as [[] [] [] [] [] [] [] []]; reflexivity.
Qed.

Lemma lower_char_idem (c : ascii) :
  Py.lower_char (Py.lower_char c) = Py.lower_char c.
Proof.
  destruct c as [[] [] [] [] [] [] [] []]; reflexivity.
Qed.

Lemma lower_idem (s : string) : Py.lower (Py.lower s) = Py.lower s.
Proof.
  induction s as [|c r IH]; simpl; [reflexivity|].
  rewrite lower_char_idem, IH. reflexivity.
Qed.

Lemma truthy_lower (s : string) : Py.truthy (Py.lower s) = Py.truthy s.
Proof. destruct s; reflexivity. Qed.

Lemma lower_lstrip (s : string) :
  Py.lower (Py.lstrip s) = Py.lstrip (Py.lower s).
Proof.
  induction s as [|c r IH]; simpl; [reflexivity|].
  rewrite isspace_lower_char. destruct (Py.isspace c); [exact IH|reflexivity].
Qed.

Lemma lower_rstrip (s : string) :
  Py.lower (Py.rstrip s) = Py.rstrip (Py.lower s).
Proof.
  induction s as [|c r IH]; simpl; [reflexivity|].
  rewrite isspace_lower_char, <- IH, truthy_lower.
  destruct (Py.isspace c && negb (Py.truthy (Py.rstrip r)))%bool; reflexivity.
Qed.

Lemma lstrip_idem (s : string) : Py.lstrip (Py.lstrip s) = Py.lstrip s.
Proof.
  induction s as [|c r IH]; simpl; [reflexivity|].
  destruct (Py.isspace c) eqn:E; [exact IH|].
  simpl. rewrite E. reflexivity.
Qed.

Lemma rstrip_idem (s : string) : Py.rstrip (Py.rstrip s) = Py.rstrip s.
Proof.
  induction s as [|c r IH]; simpl; [reflexivity|].
  destruct (Py.isspace c && negb (Py.truthy (Py.rstrip r)))%bool eqn:E;
    [reflexivity|].
  simpl. rewrite IH, E. reflexivity.
Qed.

(** Trimming on the right leaves nothing to trim on the left of a string
    that has nothing to trim on the left. *)
Lemma lstrip_rstrip_lstrip (s : string) :
  Py.lstrip (Py.rstrip (Py.lstrip s)) = Py.rstrip (Py.lstrip s).
Proof.
  induction s as [|c r IH]; simpl; [reflexivity|].
  destruct (Py.isspace c) eqn:E; [exact IH|].
  simpl. rewrite E. simpl. rewrite E. reflexivity.
Qed.

Lemma strip_idem (s : string) : Py.strip (Py.strip s) = Py.strip s.
Proof.
  unfold Py.strip. rewrite lstrip_rstrip_lstrip. apply rstrip_idem.
Qed.

Lemma lower_strip (s : string) : Py.lower (Py.strip s) = Py.strip (Py.lower s).
Proof.
  unfold Py.strip. rewrite lower_rstrip, lower_lstrip. reflexivity.
Qed.

Lemma normalize_email_fixed (e : string) :
  normalize_email (normalize_email e) = normalize_email e.
Proof.
  unfold normalize_email.
  rewrite lower_strip, lower_idem. apply strip_idem.
Qed.


(** ** Authentication *)


(** X2 -- [get_current_user] never writes; it either returns a row of the
    users table, the one found under its own non-empty address, or raises
    with status 401, never with another status. *)
Theorem get_current_user_outcomes now creds db :
  (exists u,
     get_current_user now creds db = (Ok u, db)
     /\ user_by_email (User.email u) db = Some u
     /\ User.email u <> "")
  \/ (exists d,
        get_current_user now creds db = (Raise (HTTPException 401 d), db)).
Proof.
  unfold get_current_user.
  destruct creds as [c|]; [|right; eexists; reflexivity].
  destruct (Py.truthy (scheme c)); [|right; eexists; reflexivity]. cbv zeta.
  destruct (jwt_decode _ _ _ _) as [payload|];
    [|right; eexists; reflexivity].
  destruct (dict_get "sub" payload) as [sub|];
    [|right; eexists; reflexivity].
  destruct (Py.truthy sub) eqn:Hsub; cbn [Py.truthy_opt negb]; rewrite Hsub;
    [|right; eexists; reflexivity].
  cbn [negb or_default]. rewrite Hsub. rewrite bind_query.
  destruct (user_by_email sub db) as [u|] eqn:Hu;
    [|right; eexists; reflexivity].
  left. exists u. split; [reflexivity|].
  rewrite (user_by_email_email _ _ _ Hu). split; [exact Hu|].
  apply truthy_true, Hsub.
Qed.

Lemma spacefree_lstrip (t : string) :
  forallb (fun c => negb (Py.isspace c)) (list_ascii_of_string t) = true ->
  Py.lstrip t = t.
Proof.
  destruct t as [|c r]; simpl; [reflexivity|].
  intros H. apply andb_true_iff in H. destruct H as [H _].
  apply negb_true_iff in H. rewrite H. reflexivity.
Qed.

Lemma spacefree_rstrip (t : string) :
  forallb (fun c => negb (Py.isspace c)) (list_ascii_of_string t) = true ->
  Py.rstrip t = t.
Proof.
  induction t as [|c r IH]; simpl; [reflexivity|].
  intros H. apply andb_true_iff in H. destruct H as [H Hr].
  apply negb_true_iff in H. rewrite H, (IH Hr). reflexivity.
Qed.

Lemma rstrip_before_spacefree (w t : string) :
  forallb (fun c => negb (Py.isspace c)) (list_ascii_of_string t) = true ->
  t <> "" -> Py.rstrip (w ++ t) = w ++ t.
Proof.
  intros Hfree Hne. induction w as [|c w IH]; cbn [append].
  - apply spacefree_rstrip, Hfree.
  - cbn [Py.rstrip]. rewrite IH.
    replace (Py.truthy (w ++ t)) with true.
    + rewrite andb_false_r. reflexivity.
    + symmetry. apply truthy_true. destruct w; [exact Hne | discriminate].
Qed.

Lemma spacefree_split (t : string) :
  forallb (fun c => negb (Py.isspace c)) (list_ascii_of_string t) = true ->
  t <> "" -> Py.split t = [t].
Proof.
  induction t as [|c r IH]; [congruence|].
  intros H _. cbn [list_ascii_of_string forallb] in H.
  apply andb_true_iff in H. destruct H as [H Hr].
  apply negb_true_iff in H. cbn [Py.split]. rewrite H.
  destruct r as [|c' r']; [reflexivity|].
  pose proof Hr as Hr'. cbn [list_ascii_of_string forallb] in Hr'.
  apply andb_true_iff in Hr'. destruct Hr' as [H' _].
  apply negb_true_iff in H'. rewrite H'.
  rewrite (IH Hr); [reflexivity | discriminate].
Qed.

Lemma spacefree_not_bearer (t : string) :
  forallb (fun c => negb (Py.isspace c)) (list_ascii_of_string t) = true ->
  Py.startswith "bearer " (Py.lower t) = false.
Proof.
  intros H.
  destruct t as [|c1 [|c2 [|c3 [|c4 [|c5 [|c6 [|c7 r]]]]]]];
    cbn [Py.lower Py.startswith];
    try (repeat (destruct (Ascii.eqb _ _); [|reflexivity]); reflexivity).
  cbn [list_ascii_of_string forallb] in H.
  do 6 (apply andb_true_iff in H; destruct H as [_ H]).
  apply andb_true_iff in H. destruct H as [H _].
  apply negb_true_iff in H. rewrite <- isspace_lower_char in H.
  destruct (Ascii.eqb_spec " " (Py.lower_char c7)) as [E|E].
  - rewrite <- E in H. discriminate.
  - repeat rewrite andb_false_r. reflexivity.
Qed.

Lemma bearer_prefix_dropped now sch t db :
  forallb (fun c => negb (Py.isspace c)) (list_ascii_of_string t) = true ->
  t <> "" ->
  get_current_user now
    (Some {| scheme := sch; credentials := "Bearer " ++ t |}) db
  = get_current_user now (Some {| scheme := sch; credentials := t |}) db.
Proof.
  intros Hfree Hne. unfold get_current_user. cbn [scheme credentials].
  destruct (Py.truthy sch); [|reflexivity]. cbn [negb]. cbv zeta.
  assert (Hstrip : Py.strip t = t).
  { unfold Py.strip.
    rewrite (spacefree_lstrip _ Hfree). apply spacefree_rstrip, Hfree. }
  assert (Hpre : Py.strip ("Bearer " ++ t) = "Bearer " ++ t).
  { unfold Py.strip.
    change (Py.lstrip ("Bearer " ++ t)) with ("Bearer " ++ t).
    apply rstrip_before_spacefree; assumption. }
  rewrite Hstrip, Hpre.
  rewrite (spacefree_not_bearer _ Hfree).
  replace (Py.startswith "bearer " (Py.lower ("Bearer " ++ t))) with true
    by reflexivity.
  replace (Py.split ("Bearer " ++ t)) with ["Bearer"; t].
  - reflexivity.
  - symmetry. pose proof (spacefree_split _ Hfree Hne) as Hs.
    destruct t as [|c r]; [congruence|].
    cbn [list_ascii_of_string forallb] in Hfree.
    apply andb_true_iff in Hfree. destruct Hfree as [Hc _].
    apply negb_true_iff in Hc.
    cbn. rewrite Hc. cbn [Py.split] in Hs. rewrite Hc in Hs.
    rewrite Hs. reflexivity.
Qed.



(** ** Fresh identifiers and lookups after an insertion *)

Lemma next_id_above (ids : list Z) (i : Z) : In i ids -> i < next_id ids.
Proof.
  unfold next_id. induction ids as [|j r IH]; cbn [fold_right In];
    [intros []|].
  intros [->|Hin]; [lia|]. specialize (IH Hin). lia.
Qed.

Lemma first_none_app {A} (f : A -> bool) (l l' : list A) :
  first f l = None -> first f (l ++ l') = first f l'.
Proof.
  unfold first. induction l as [|y r IH]; simpl; [reflexivity|].
  destruct (f y); [discriminate | exact IH].
Qed.

Lemma first_none_fresh {A} (key : A -> Z) (l : list A) :
  first (fun x => key x =? next_id (List.map key l)) l = None.
Proof.
  unfold first.
  destruct (find _ l) as [x|] eqn:E; [|reflexivity].
  apply find_some in E. destruct E as [Hin Hx].
  apply Z.eqb_eq in Hx.
  pose proof (next_id_above (List.map key l) (key x) (in_map key l x Hin)).
  lia.
Qed.

Lemma patient_by_id_id (i : Z) (db : DB) (p : Patient.t) :
  patient_by_id i db = Some p -> Patient.id p = i.
Proof.
  unfold patient_by_id, first. intros H.
  apply find_some in H. destruct H as [_ H]. lia.
Qed.

(** ** Registration, login and the token *)

Lemma register_appends now salt payload db :
  user_by_email (normalize_email (ru_email payload)) db = None ->
  exists u,
    register now salt payload db
    = (Ok u, mkDB (users db ++ [u])%list (patients db) (consultations db))
    /\ User.email u = normalize_email (ru_email payload)
    /\ User.role u = role_str (ru_role payload)
    /\ User.password_hash u = hash_password salt (ru_password payload)
    /\ (forall v, In v (users db) -> User.id v < User.id u)
    /\ user_by_email (User.email u) (snd (register now salt payload db))
       = Some u.
Proof.
  intros Hnone.
  assert (Hex :
    existsb (fun v => String.eqb (User.email v)
                                 (normalize_email (ru_email payload)))
            (users db) = false).
  { destruct (existsb _ (users db)) eqn:E; [|reflexivity].
    apply existsb_exists in E. destruct E as [v [Hin Hv]].
    unfold user_by_email, first in Hnone.
    pose proof (find_none _ _ Hnone v Hin) as Hf. cbv beta in Hf.
    congruence. }
  unfold register. rewrite bind_query.
  unfold try_except, bind, insert_user. cbn [User.email].
  rewrite Hex. cbn [ret].
  eexists. split; [reflexivity|]. cbn [User.email User.role User.password_hash
                                        User.id snd].
  repeat split.
  - intros v Hin. apply next_id_above, in_map, Hin.
  - unfold user_by_email in *. cbn [users].
    rewrite (first_none_app _ _ _ Hnone). unfold first. cbn.
    rewrite String.eqb_refl. reflexivity.
Qed.



(** X6 -- the token a login returns authenticates the user who logged
    in, whether it is sent bare or as the ready-made "Bearer <token>"
    text of the response, provided the token library decodes at that time
    what it encoded, the token has no white space and the stored address
    is not empty. *)
Theorem login_then_authenticate now now' payload db resp u sch claims :
  fst (login now payload db) = Ok resp ->
  user_by_email (normalize_email (lr_email payload)) db = Some u ->
  User.email u <> "" ->
  jwt_decode (access_token resp) SECRET_KEY [ALGORITHM] now' = Some claims ->
  dict_get "sub" claims = Some (User.email u) ->
  forallb (fun c => negb (Py.isspace c))
          (list_ascii_of_string (access_token resp)) = true ->
  access_token resp <> "" ->
  sch <> "" ->
  get_current_user now'
    (Some {| scheme := sch; credentials := access_token resp |}) db
  = (Ok u, db)
  /\ get_current_user now'
       (Some {| scheme := sch; credentials := authorization resp |}) db
     = (Ok u, db).
Proof.
  intros Hlogin Hu Hemail Hdec Hsub Hfree Htok Hsch.
  assert (Hauth : authorization resp = "Bearer " ++ access_token resp).
  { unfold login in Hlogin. rewrite bind_query, Hu in Hlogin.
    destruct (verify_password _ _); cbn [negb] in Hlogin; [|discriminate].
    cbn in Hlogin. injection Hlogin as <-. reflexivity. }
  assert (Hbare :
    get_current_user now'
      (Some {| scheme := sch; credentials := access_token resp |}) db
    = (Ok u, db)).
  { unfold get_current_user. cbn [scheme credentials].
    apply truthy_true in Hsch. rewrite Hsch. cbn [negb]. cbv zeta.
    assert (Hstrip : Py.strip (access_token resp) = access_token resp).
    { unfold Py.strip. rewrite (spacefree_lstrip _ Hfree).
      apply spacefree_rstrip, Hfree. }
    rewrite Hstrip, (spacefree_not_bearer _ Hfree), Hdec, Hsub.
    apply truthy_true in Hemail. cbn [Py.truthy_opt or_default].
    rewrite Hemail. cbn [negb]. rewrite bind_query.
    rewrite (user_by_email_self _ _ _ Hu). reflexivity. }
  split; [exact Hbare|].
  rewrite Hauth, bearer_prefix_dropped; assumption.
Qed.


(** ** Patients *)

(** Authentication reads the users table only. *)
Lemma get_current_user_users now creds db db' :
  users db' = users db ->
  fst (get_current_user now creds db') = fst (get_current_user now creds db).
Proof.
  intros Hu. unfold get_current_user.
  destruct creds as [c|]; [|reflexivity].
  destruct (Py.truthy (scheme c)); [|reflexivity]. cbn [negb]. cbv zeta.
  destruct (jwt_decode _ _ _ _) as [pl|]; [|reflexivity].
  destruct (negb _); [reflexivity|].
  rewrite !bind_query. unfold user_by_email. rewrite Hu.
  destruct (first _ (users db)); reflexivity.
Qed.


Lemma patient_by_id_updated (p p' : Patient.t) (i : Z) (db : DB) :
  patient_by_id i db = Some p ->
  Patient.id p' = Patient.id p ->
  patient_by_id i (update_patient p' db) = Some p'.
Proof.
  intros Hp Hid. pose proof (patient_by_id_id _ _ _ Hp) as Hi.
  unfold patient_by_id, first, update_patient in *. cbn [patients].
  induction (patients db) as [|q r IH]; cbn [find List.map] in *;
    [discriminate|].
  destruct (Z.eqb_spec (Patient.id q) i) as [Hq|Hq].
  - replace (Patient.id q =? Patient.id p') with true
      by (symmetry; apply Z.eqb_eq; lia).
    replace (Patient.id p' =? i) with true
      by (symmetry; apply Z.eqb_eq; lia).
    reflexivity.
  - replace (Patient.id q =? Patient.id p') with false
      by (symmetry; apply Z.eqb_neq; lia).
    apply Z.eqb_neq in Hq. rewrite Hq. apply IH, Hp.
Qed.

Lemma in_update_patient (p' q : Patient.t) (db : DB) :
  In q (patients db) -> Patient.id q = Patient.id p' ->
  In p' (patients (update_patient p' db)).
Proof.
  intros Hin Hid. unfold update_patient. cbn [patients].
  apply in_map_iff. exists q. split; [|exact Hin].
  apply Z.eqb_eq in Hid. rewrite Hid. reflexivity.
Qed.

(** X8 -- a sales caller assigning an existing patient to the address of
    a user with role doctor succeeds: only the patient's
    [assigned_doctor_email] changes, to the doctor's stored address, the
    users and consultations tables are untouched, and from then on that
    doctor's own patient list contains the patient. *)
Theorem assign_patient_then_listed now creds payload db u p d now' dcreds :
  fst (get_current_user now creds db) = Ok u ->
  User.role u = "sales" ->
  patient_by_id (ap_patient_id payload) db = Some p ->
  user_by_email (normalize_email (ap_doctor_email payload)) db = Some d ->
  User.role d = "doctor" ->
  fst (get_current_user now' dcreds db) = Ok d ->
  let p' :=
    Patient.set_assigned_doctor_email
      (Some (normalize_email (ap_doctor_email payload))) p in
  let db' := update_patient p' db in
  assign_patient now creds payload db = (Ok p', db')
  /\ users db' = users db
  /\ consultations db' = consultations db
  /\ patient_by_id (ap_patient_id payload) db' = Some p'
  /\ exists l, list_patients now' dcreds db' = (Ok l, db') /\ In p' l.
Proof.
  intros H Hs Hp Hd Hr Hdoc. cbv zeta.
  pose proof (user_by_email_email _ _ _ Hd) as He.
  split.
  { unfold assign_patient. as_caller H. rewrite Hs, String.eqb_refl.
    cbn [negb].
    rewrite bind_query, Hp. cbv beta iota. rewrite bind_query, Hd.
    cbv beta iota. rewrite Hr, String.eqb_refl. cbn [negb].
    rewrite He. reflexivity. }
  split; [reflexivity|]. split; [reflexivity|].
  split; [apply (patient_by_id_updated p); [exact Hp | reflexivity]|].
  set (p' := Patient.set_assigned_doctor_email _ p).
  assert (Hdoc' : fst (get_current_user now' dcreds (update_patient p' db))
                  = Ok d).
  { rewrite (get_current_user_users now' dcreds db); [exact Hdoc|].
    reflexivity. }
  unfold list_patients. as_caller Hdoc'. rewrite Hr.
  change (String.eqb "doctor" "sales") with false. rewrite String.eqb_refl.
  eexists. split; [reflexivity|].
  apply (Permutation_in _ (Permutation_sym (order_by_desc_perm _ _))).
  apply filter_In. split.
  - unfold patient_by_id, first in Hp. apply find_some in Hp.
    destruct Hp as [Hin Hid].
    apply (in_update_patient p' p); [exact Hin | reflexivity].
  - subst p'. cbn [Patient.assigned_doctor_email
                   Patient.set_assigned_doctor_email col_eq].
    rewrite He. apply String.eqb_refl.
Qed.


(** ** Consultations *)

Lemma permitted_guard (u : User.t) (p : Patient.t) :
  policy_permits u p ->
  (String.eqb (User.role u) "doctor"
   && opt_neq (Patient.assigned_doctor_email p) (User.email u))%bool = false
  /\ negb (String.eqb (User.role u) "sales"
           || String.eqb (User.role u) "doctor")%bool = false.
Proof.
  intros [Hs|[Hd Ha]].
  - rewrite Hs. split; reflexivity.
  - rewrite Hd, Ha. cbn [opt_neq]. rewrite !String.eqb_refl.
    split; reflexivity.
Qed.


(** X10 -- a sales caller, or the doctor the patient is assigned to,
    scheduling for an existing patient gets a new consultation: pending,
    without notes, for that patient, created by the caller, with the
    meeting address built from the random token and an id above every
    existing id; it is appended to the table, found again under its id,
    and nothing else is written. *)
Theorem schedule_consultation_created now tok creds payload db u p :
  fst (get_current_user now creds db) = Ok u ->
  patient_by_id (sc_patient_id payload) db = Some p ->
  policy_permits u p ->
  exists c,
    schedule_consultation now tok creds payload db
    = (Ok c, mkDB (users db) (patients db) (consultations db ++ [c])%list)
    /\ Consultation.patient_id c = sc_patient_id payload
    /\ Consultation.video_url c = "https://meet.jit.si/Prakvedaa-" ++ tok
    /\ Consultation.status c = Some "pending"
    /\ Consultation.doctor_notes c = None
    /\ Consultation.scheduled_at c = sc_scheduled_at payload
    /\ Consultation.created_by c = User.email u
    /\ (forall q, In q (consultations db) ->
          Consultation.id q < Consultation.id c)
    /\ consultation_by_id (Consultation.id c)
         (snd (schedule_consultation now tok creds payload db)) = Some c.
Proof.
  intros H Hp Hperm. destruct (permitted_guard u p Hperm) as [Hg1 Hg2].
  unfold schedule_consultation. as_caller H. rewrite bind_query, Hp.
  cbv beta iota. rewrite Hg1, Hg2. cbv zeta. rewrite bind_query.
  unfold bind, insert_consultation, commit, ret.
  eexists. split; [reflexivity|].
  cbn [Consultation.patient_id Consultation.video_url Consultation.status
       Consultation.doctor_notes Consultation.scheduled_at
       Consultation.created_by Consultation.id snd].
  split; [apply (patient_by_id_id _ _ _ Hp)|].
  repeat split.
  - intros q Hin. apply next_id_above, in_map, Hin.
  - unfold consultation_by_id. cbn [consultations].
    rewrite first_none_app by apply (first_none_fresh Consultation.id).
    unfold first. cbn [find Consultation.id]. rewrite Z.eqb_refl.
    reflexivity.
Qed.

(** X11 -- listing consultations: a sales caller receives all of them, a
    doctor exactly those whose patient is assigned to the doctor's own
    address, both by descending id; any other role is refused with 403. *)
Theorem list_consultations_visibility now creds db u :
  fst (get_current_user now creds db) = Ok u ->
  (User.role u = "sales" ->
     exists l, list_consultations now creds db = (Ok l, db)
               /\ Permutation l (consultations db)
               /\ StronglySorted
                    (fun a b => Consultation.id b <= Consultation.id a) l)
  /\ (User.role u = "doctor" ->
     exists l, list_consultations now creds db = (Ok l, db)
               /\ StronglySorted
                    (fun a b => Consultation.id b <= Consultation.id a) l
               /\ (forall c, In c l <->
                     In c (consultations db)
                     /\ exists p,
                          In p (patients db)
                          /\ Patient.id p = Consultation.patient_id c
                          /\ Patient.assigned_doctor_email p
                             = Some (User.email u)))
  /\ (User.role u <> "sales" -> User.role u <> "doctor" ->
     list_consultations now creds db
     = (Raise (HTTPException 403 "Role not permitted"), db)).
Proof.
  intros H. unfold list_consultations. as_caller H.
  split; [|split].
  - intros ->. rewrite String.eqb_refl. eexists. split; [reflexivity|].
    split; [apply order_by_desc_perm | apply order_by_desc_sorted].
  - intros ->. change (String.eqb "doctor" "sales") with false.
    rewrite String.eqb_refl. eexists. split; [reflexivity|].
    split; [apply order_by_desc_sorted|].
    intros c. split.
    + intros Hin.
      apply (Permutation_in _ (order_by_desc_perm _ _)) in Hin.
      apply filter_In in Hin. destruct Hin as [Hin Hex].
      split; [exact Hin|].
      apply existsb_exists in Hex. destruct Hex as [p [Hp Hc]].
      apply andb_true_iff in Hc. destruct Hc as [Hid Ha].
      exists p. split; [exact Hp|]. split; [lia|].
      unfold col_eq in Ha.
      destruct (Patient.assigned_doctor_email p) as [e|]; [|discriminate].
      apply String.eqb_eq in Ha. congruence.
    + intros [Hin [p [Hp [Hid Ha]]]].
      apply (Permutation_in _ (Permutation_sym (order_by_desc_perm _ _))).
      apply filter_In. split; [exact Hin|].
      apply existsb_exists. exists p. split; [exact Hp|].
      apply andb_true_iff. split; [lia|].
      rewrite Ha. cbn [col_eq]. apply String.eqb_refl.
  - intros Hs Hd.
    apply String.eqb_neq in Hs. apply String.eqb_neq in Hd.
    rewrite Hs, Hd. reflexivity.
Qed.

Lemma update_writes_one_row now creds cid notes status db c' :
  fst (update_consultation now creds cid notes status db) = Ok c' ->
  exists c,
    consultation_by_id cid db = Some c
    /\ Consultation.id c' = Consultation.id c
    /\ Consultation.patient_id c' = Consultation.patient_id c
    /\ Consultation.video_url c' = Consultation.video_url c
    /\ Consultation.scheduled_at c' = Consultation.scheduled_at c
    /\ Consultation.created_by c' = Consultation.created_by c
    /\ Consultation.created_at c' = Consultation.created_at c
    /\ snd (update_consultation now creds cid notes status db)
       = update_consultation_row c' db
    /\ users (update_consultation_row c' db) = users db
    /\ patients (update_consultation_row c' db) = patients db.
Proof.
  unfold update_consultation. rewrite bind_caller_cases.
  destruct (fst (get_current_user now creds db)) as [u|e]; [|discriminate].
  rewrite bind_query.
  destruct (consultation_by_id cid db) as [c|]; [|discriminate].
  rewrite bind_query. unfold bind at 1.
  assert (Hdone : forall db0,
    fst ((let c1 :=
            match notes with
            | Some n =>
                Consultation.set_doctor_notes
                  (if Py.truthy n then Some (Py.strip n)
                   else Consultation.doctor_notes c) c
            | None => c
            end in
          let c2 :=
            match status with
            | Some s => Consultation.set_status (Some (Py.lower s)) c1
            | None => c1
            end in
          bind (commit (update_consultation_row c2)) (fun _ => ret c2)) db0)
    = Ok c' ->
    Consultation.id c' = Consultation.id c
    /\ Consultation.patient_id c' = Consultation.patient_id c
    /\ Consultation.video_url c' = Consultation.video_url c
    /\ Consultation.scheduled_at c' = Consultation.scheduled_at c
    /\ Consultation.created_by c' = Consultation.created_by c
    /\ Consultation.created_at c' = Consultation.created_at c
    /\ snd ((let c1 :=
               match notes with
               | Some n =>
                   Consultation.set_doctor_notes
                     (if Py.truthy n then Some (Py.strip n)
                      else Consultation.doctor_notes c) c
               | None => c
               end in
             let c2 :=
               match status with
               | Some s => Consultation.set_status (Some (Py.lower s)) c1
               | None => c1
               end in
             bind (commit (update_consultation_row c2)) (fun _ => ret c2)) db0)
       = update_consultation_row c' db0).
  { intros db0. cbv zeta. unfold bind, commit, ret. cbn [fst snd].
    intros [= <-]. destruct notes, status; repeat split. }
  destruct (String.eqb (User.role u) "doctor").
  - destruct (patient_by_id _ db) as [p|]; [|discriminate].
    unfold ret at 1. destruct (opt_neq _ _); [discriminate|].
    intros Hok. exists c. split; [reflexivity|].
    destruct (Hdone db Hok) as (?&?&?&?&?&?&?). repeat split; assumption.
  - unfold ret at 1. intros Hok. exists c. split; [reflexivity|].
    destruct (Hdone db Hok) as (?&?&?&?&?&?&?). repeat split; assumption.
Qed.

(** X12 -- whatever the caller and the arguments, an update that succeeds
    was for an existing consultation and writes that one row only: its id,
    patient, meeting address, scheduled time, creator and creation time
    are as before, and the users and patients tables are untouched. *)
Theorem update_consultation_frame now creds cid notes status db c' :
  fst (update_consultation now creds cid notes status db) = Ok c' ->
  exists c,
    consultation_by_id cid db = Some c
    /\ Consultation.id c' = Consultation.id c
    /\ Consultation.patient_id c' = Consultation.patient_id c
    /\ Consultation.video_url c' = Consultation.video_url c
    /\ Consultation.scheduled_at c' = Consultation.scheduled_at c
    /\ Consultation.created_by c' = Consultation.created_by c
    /\ Consultation.created_at c' = Consultation.created_at c
    /\ snd (update_consultation now creds cid notes status db)
       = update_consultation_row c' db
    /\ users (update_consultation_row c' db) = users db
    /\ patients (update_consultation_row c' db) = patients db.
Proof. exact (update_writes_one_row now creds cid notes status db c'). Qed.



(** ** What a request writes *)

Lemma first_in {A} (f : A -> bool) (l : list A) (x : A) :
  first f l = Some x -> In x l.
Proof. unfold first. intros H. apply find_some in H. apply H. Qed.

Lemma register_change now salt payload db :
  change db (snd (register now salt payload db)).
Proof.
  destruct (user_by_email (normalize_email (ru_email payload)) db)
    as [v|] eqn:Hv.
  - rewrite register_rejects; [apply change_none|].
    apply existsb_exists. exists v. split.
    + apply (first_in _ _ _ Hv).
    + apply String.eqb_eq, (user_by_email_email _ _ _ Hv).
  - destruct (register_appends now salt payload db Hv)
      as [u [Hrun [Hemail [Hrole [_ [_ _]]]]]].
    pose proof Hrun as Hid. unfold register in Hid. rewrite bind_query in Hid.
    unfold try_except, bind, insert_user in Hid.
    destruct (existsb _ (users db)); [discriminate|].
    cbn [ret] in Hid. injection Hid as Hid _.
    rewrite Hrun. cbn [snd]. apply change_register.
    + rewrite Hemail. exact Hv.
    + rewrite Hemail. apply normalize_email_fixed.
    + exists (ru_role payload). exact Hrole.
    + rewrite <- Hid. reflexivity.
Qed.

Lemma create_patient_change now creds payload db :
  change db (snd (create_patient now creds payload db)).
Proof.
  unfold create_patient. rewrite bind_caller_cases.
  destruct (fst (get_current_user now creds db)) as [u|e] eqn:Hu;
    [|apply change_none].
  destruct (String.eqb (User.role u) "sales") eqn:Hr; cbn [negb];
    [|apply change_none].
  rewrite bind_query. unfold bind, insert_patient, commit, ret. cbn [snd].
  apply change_create_patient with (u := u); cbn [Patient.created_by
    Patient.id Patient.assigned_doctor_email]; try reflexivity.
  - apply (authenticated_registered _ _ _ _ Hu).
  - apply String.eqb_eq, Hr.
Qed.

Lemma assign_patient_change now creds payload db :
  change db (snd (assign_patient now creds payload db)).
Proof.
  unfold assign_patient. rewrite bind_caller_cases.
  destruct (fst (get_current_user now creds db)) as [u|e];
    [|apply change_none].
  destruct (String.eqb (User.role u) "sales"); cbn [negb];
    [|apply change_none].
  rewrite bind_query.
  destruct (patient_by_id _ db) as [p|] eqn:Hp; [|apply change_none].
  rewrite bind_query.
  destruct (user_by_email _ db) as [d|] eqn:Hd; [|apply change_none].
  destruct (String.eqb (User.role d) "doctor") eqn:Hr; cbn [negb];
    [|apply change_none].
  unfold bind, commit, ret. cbn [snd].
  apply change_assign.
  - apply (first_in _ _ _ Hp).
  - eapply user_by_email_self, Hd.
  - apply String.eqb_eq, Hr.
Qed.

Lemma schedule_consultation_change now tok creds payload db :
  change db (snd (schedule_consultation now tok creds payload db)).
Proof.
  unfold schedule_consultation. rewrite bind_caller_cases.
  destruct (fst (get_current_user now creds db)) as [u|e] eqn:Hu;
    [|apply change_none].
  rewrite bind_query.
  destruct (patient_by_id _ db) as [p|] eqn:Hp; [|apply change_none].
  destruct (_ && _)%bool; [apply change_none|].
  destruct (String.eqb (User.role u) "sales"
            || String.eqb (User.role u) "doctor")%bool eqn:Hr; cbn [negb];
    [|apply change_none].
  cbv zeta. rewrite bind_query.
  unfold bind, insert_consultation, commit, ret. cbn [snd].
  apply change_schedule with (p := p) (u := u);
    cbn [Consultation.patient_id Consultation.created_by Consultation.id];
    try reflexivity.
  - rewrite (patient_by_id_id _ _ _ Hp). exact Hp.
  - apply (authenticated_registered _ _ _ _ Hu).
  - apply orb_true_iff in Hr.
    destruct Hr as [Hr|Hr]; apply String.eqb_eq in Hr; auto.
Qed.

Lemma update_consultation_change now creds cid notes status db :
  change db (snd (update_consultation now creds cid notes status db)).
Proof.
  destruct (fst (update_consultation now creds cid notes status db))
    as [c'|e] eqn:Hrun.
  - destruct (update_writes_one_row _ _ _ _ _ _ _ Hrun)
      as [c [Hc [Hid [Hpid [_ [_ [Hby [_ [Hdb _]]]]]]]]].
    rewrite Hdb. apply change_update with (c := c); try assumption.
    apply (first_in _ _ _ Hc).
  - replace (snd (update_consultation now creds cid notes status db))
      with db; [apply change_none|].
    revert Hrun. unfold update_consultation. rewrite bind_caller_cases.
    destruct (fst (get_current_user now creds db)) as [u|e0]; [|reflexivity].
    rewrite bind_query.
    destruct (consultation_by_id cid db) as [c|]; [|reflexivity].
    rewrite bind_query. unfold bind at 1.
    destruct (String.eqb (User.role u) "doctor").
    + destruct (patient_by_id _ db) as [p|]; [|reflexivity].
      unfold ret at 1. destruct (opt_neq _ _); [reflexivity|].
      unfold bind, commit, ret. discriminate.
    + unfold ret at 1. unfold bind, commit, ret. discriminate.
Qed.

Lemma serve_change now r db : change db (serve now r db).
Proof.
  destruct r; cbn [serve].
  - apply register_change.
  - rewrite login_db. apply change_none.
  - apply create_patient_change.
  - rewrite list_patients_db. apply change_none.
  - apply assign_patient_change.
  - apply schedule_consultation_change.
  - rewrite list_consultations_db. apply change_none.
  - rewrite share_message_db. apply change_none.
  - rewrite whatsapp_link_db. apply change_none.
  - rewrite whatsapp_send_direct_db. apply change_none.
  - rewrite list_users_db. apply change_none.
  - apply update_consultation_change.
Qed.


(** ** Invariants of the reachable states *)

Lemma NoDup_snoc {A} (l : list A) (x : A) :
  NoDup l -> ~ In x l -> NoDup (l ++ [x]).
Proof.
  induction l as [|y r IH]; cbn [app]; intros Hnd Hx.
  - constructor; [intros []|constructor].
  - inversion Hnd as [|? ? Hy Hr]; subst. constructor.
    + intros Hin. apply in_app_or in Hin.
      destruct Hin as [Hin|[->|[]]]; [exact (Hy Hin)|].
      apply Hx. left. reflexivity.
    + apply IH; [exact Hr|]. intros Hin. apply Hx. right. exact Hin.
Qed.

Lemma next_id_not_in (ids : list Z) : ~ In (next_id ids) ids.
Proof.
  intros Hin. pose proof (next_id_above _ _ Hin). lia.
Qed.

Lemma email_not_in (e : string) (db : DB) :
  user_by_email e db = None -> ~ In e (List.map User.email (users db)).
Proof.
  unfold user_by_email, first. intros Hnone Hin.
  apply in_map_iff in Hin. destruct Hin as [u [He Hu]].
  pose proof (find_none _ _ Hnone u Hu) as Hf. cbv beta in Hf.
  rewrite He, String.eqb_refl in Hf. discriminate.
Qed.

Lemma map_key_replace {A} (key : A -> Z) (x : A) (l : list A) :
  List.map key (List.map (fun q => if key q =? key x then x else q) l)
  = List.map key l.
Proof.
  induction l as [|q r IH]; cbn [List.map]; [reflexivity|].
  rewrite IH. destruct (Z.eqb_spec (key q) (key x)) as [E|E];
    [rewrite E|]; reflexivity.
Qed.

Lemma first_key_replace {A} (key : A -> Z) (x : A) (l : list A) (i : Z) :
  (exists q, first (fun q => key q =? i) l = Some q) ->
  exists q',
    first (fun q => key q =? i)
          (List.map (fun q => if key q =? key x then x else q) l) = Some q'.
Proof.
  unfold first. induction l as [|q r IH]; cbn [find List.map];
    [intros [q0 H0]; discriminate|].
  intros Hex.
  destruct (Z.eqb_spec (key q) (key x)) as [E|E].
  - destruct (Z.eqb_spec (key q) i) as [Ei|Ei].
    + replace (key x =? i) with true by (symmetry; apply Z.eqb_eq; lia).
      eauto.
    + replace (key x =? i) with false by (symmetry; apply Z.eqb_neq; lia).
      apply IH, Hex.
  - destruct (key q =? i); [eauto | apply IH, Hex].
Qed.

Lemma first_unique {A} (key : A -> Z) (l : list A) (x : A) :
  NoDup (List.map key l) -> In x l ->
  first (fun q => key q =? key x) l = Some x.
Proof.
  unfold first. induction l as [|q r IH]; cbn [List.map find];
    [intros _ []|].
  intros Hnd Hin. inversion Hnd as [|? ? Hq Hr]; subst.
  destruct Hin as [->|Hin]; [rewrite Z.eqb_refl; reflexivity|].
  destruct (Z.eqb_spec (key q) (key x)) as [E|E]; [|apply IH; assumption].
  exfalso. apply Hq. rewrite E. apply in_map, Hin.
Qed.

Lemma change_keys_unique db db' :
  change db db' -> keys_unique db -> keys_unique db'.
Proof.
  intros Hch (Hui & Hue & Hpi & Hci & Hun).
  destruct Hch as [ |u Hnone Hnorm Hrole Hid|p u Hu Hr Hid Ha|p d Hp Hd Hr
                   |c p u Hp Hu Hr Hid|c c' Hc Hid Hpid Hby];
    unfold keys_unique;
    cbn [users patients consultations update_patient
         update_consultation_row].
  - repeat split; try assumption; apply Hun; assumption.
  - rewrite !map_app. cbn [List.map]. repeat split; try assumption.
    + apply NoDup_snoc; [exact Hui|]. rewrite Hid. apply next_id_not_in.
    + apply NoDup_snoc; [exact Hue|]. apply email_not_in, Hnone.
    + apply in_app_or in H. destruct H as [H|[<-|[]]];
        [apply Hun, H | exact Hnorm].
    + apply in_app_or in H. destruct H as [H|[<-|[]]];
        [apply Hun, H | exact Hrole].
  - rewrite !map_app. cbn [List.map]. repeat split; try assumption;
      try (apply Hun; assumption).
    apply NoDup_snoc; [exact Hpi|]. rewrite Hid. apply next_id_not_in.
  - repeat split; try assumption; try (apply Hun; assumption).
    rewrite (map_key_replace Patient.id). exact Hpi.
  - rewrite !map_app. cbn [List.map]. repeat split; try assumption;
      try (apply Hun; assumption).
    apply NoDup_snoc; [exact Hci|]. rewrite Hid. apply next_id_not_in.
  - repeat split; try assumption; try (apply Hun; assumption).
    rewrite (map_key_replace Consultation.id). exact Hci.
Qed.

Lemma change_references_resolve db db' :
  change db db' -> references_resolve db -> references_resolve db'.
Proof.
  intros Hch (Hcp & Hpu & Hcu).
  destruct Hch as [ |u Hnone Hnorm Hrole Hid|p u Hu Hr Hid Ha|p d Hp Hd Hr
                   |c p u Hp Hu Hr Hid|c c' Hc Hid Hpid Hby];
    unfold references_resolve.
  - repeat split; assumption.
  - cbn [patients consultations]. repeat split.
    + exact Hcp.
    + intros q Hq. destruct (Hpu q Hq) as [v [Hv Hrv]].
      exists v. split; [|exact Hrv].
      unfold user_by_email in *. cbn [users]. apply first_app, Hv.
    + intros q Hq. destruct (Hcu q Hq) as [v [Hv Hrv]].
      exists v. split; [|exact Hrv].
      unfold user_by_email in *. cbn [users]. apply first_app, Hv.
  - cbn [patients consultations]. repeat split.
    + intros q Hq. destruct (Hcp q Hq) as [p0 Hp0]. exists p0.
      unfold patient_by_id in *. cbn [patients]. apply first_app, Hp0.
    + intros q Hq. apply in_app_or in Hq.
      destruct Hq as [Hq|[<-|[]]]; [exact (Hpu q Hq)|].
      exists u. split; assumption.
    + exact Hcu.
  - repeat split.
    + intros q Hq. unfold patient_by_id, update_patient. cbn [patients].
      apply (first_key_replace Patient.id). apply (Hcp q Hq).
    + intros q Hq. unfold update_patient in Hq. cbn [patients] in Hq.
      apply in_map_iff in Hq. destruct Hq as [q0 [Hq0 Hin]].
      destruct (Patient.id q0 =? _).
      * subst q. exact (Hpu p Hp).
      * subst q0. exact (Hpu q Hin).
    + exact Hcu.
  - cbn [patients consultations]. repeat split.
    + intros q Hq. apply in_app_or in Hq.
      destruct Hq as [Hq|[<-|[]]]; [exact (Hcp q Hq)|].
      exists p. exact Hp.
    + exact Hpu.
    + intros q Hq. apply in_app_or in Hq.
      destruct Hq as [Hq|[<-|[]]]; [exact (Hcu q Hq)|].
      exists u. split; assumption.
  - repeat split.
    + intros q Hq. unfold update_consultation_row in Hq.
      cbn [consultations] in Hq.
      apply in_map_iff in Hq. destruct Hq as [q0 [Hq0 Hin]].
      destruct (Consultation.id q0 =? _).
      * subst q. rewrite Hpid. exact (Hcp c Hc).
      * subst q0. exact (Hcp q Hin).
    + exact Hpu.
    + intros q Hq. unfold update_consultation_row in Hq.
      cbn [consultations] in Hq.
      apply in_map_iff in Hq. destruct Hq as [q0 [Hq0 Hin]].
      destruct (Consultation.id q0 =? _).
      * subst q. rewrite Hby. exact (Hcu c Hc).
      * subst q0. exact (Hcu q Hin).
Qed.

Lemma reachable_invariants db :
  reachable db -> keys_unique db /\ references_resolve db.
Proof.
  induction 1 as [|now r db Hreach [Hk Hr]].
  - split.
    + unfold keys_unique. cbn [empty_db users patients consultations List.map].
      split; [constructor|]. split; [constructor|]. split; [constructor|].
      split; [constructor|]. intros u [].
    + unfold references_resolve.
      cbn [empty_db users patients consultations].
      split; [intros c []|]. split; [intros p []|intros c []].
  - split.
    + eapply change_keys_unique; [apply serve_change | exact Hk].
    + eapply change_references_resolve; [apply serve_change | exact Hr].
Qed.


(** X14 -- in every state reachable through the API the keys are
    unique: ids within each table and addresses among the users, every
    address being stored normalised and every role being one of the three;
    so a lookup by id or by address returns the one row that has it. *)
Theorem reachable_keys_unique db :
  reachable db ->
  keys_unique db
  /\ (forall u, In u (users db) -> user_by_email (User.email u) db = Some u)
  /\ (forall p, In p (patients db) -> patient_by_id (Patient.id p) db = Some p)
  /\ (forall c, In c (consultations db) ->
        consultation_by_id (Consultation.id c) db = Some c).
Proof.
  intros Hreach. destruct (reachable_invariants db Hreach) as [Hk _].
  split; [exact Hk|].
  destruct Hk as (Hui & Hue & Hpi & Hci & Hun).
  split; [|split].
  - intros u Hin. unfold user_by_email, first.
    clear Hun Hui. induction (users db) as [|v r IH]; [destruct Hin|].
    cbn [List.map] in Hue. inversion Hue as [|? ? Hv Hr]; subst.
    cbn [find]. destruct Hin as [->|Hin]; [rewrite String.eqb_refl; reflexivity|].
    destruct (String.eqb_spec (User.email v) (User.email u)) as [E|E];
      [|apply IH; assumption].
    exfalso. apply Hv. rewrite E. apply in_map, Hin.
  - intros p Hin. apply (first_unique Patient.id); assumption.
  - intros c Hin. apply (first_unique Consultation.id); assumption.
Qed.

(** X15 -- in every state reachable through the API every reference
    resolves: the patient of each consultation is stored, the creator of
    each patient is a stored sales user, and the creator of each
    consultation is a stored sales user or doctor. *)
Theorem reachable_references_resolve db :
  reachable db -> references_resolve db.
Proof.
  intros Hreach. apply (reachable_invariants db Hreach).
Qed.


Lemma joined_assigned_in (e : string) (db : DB) (c : Consultation.t) :
  In c (joined_assigned e db) <->
  In c (consultations db)
  /\ exists p, In p (patients db)
               /\ Patient.id p = Consultation.patient_id c
               /\ Patient.assigned_doctor_email p = Some e.
Proof.
  unfold joined_assigned. rewrite filter_In. split.
  - intros [Hin Hex]. split; [exact Hin|].
    apply existsb_exists in Hex. destruct Hex as [p [Hp Hc]].
    apply andb_true_iff in Hc. destruct Hc as [Hid Ha].
    exists p. split; [exact Hp|]. split; [lia|].
    unfold col_eq in Ha.
    destruct (Patient.assigned_doctor_email p) as [e'|]; [|discriminate].
    apply String.eqb_eq in Ha. congruence.
  - intros [Hin [p [Hp [Hid Ha]]]]. split; [exact Hin|].
    apply existsb_exists. exists p. split; [exact Hp|].
    apply andb_true_iff. split; [lia|].
    rewrite Ha. cbn [col_eq]. apply String.eqb_refl.
Qed.

(** X17 -- in a state reachable through the API a doctor's list of
    consultations and the sharing guard agree: a stored consultation is in
    the list exactly when the doctor's request for its share message
    succeeds. *)
Theorem doctor_shares_what_is_listed now creds db u :
  reachable db ->
  fst (get_current_user now creds db) = Ok u ->
  User.role u = "doctor" ->
  exists l,
    list_consultations now creds db = (Ok l, db)
    /\ forall c phone, In c (consultations db) ->
         (In c l <->
          exists m,
            fst (share_message now creds
                   {| consultation_id := Consultation.id c;
                      phone_e164 := phone |} db) = Ok m).
Proof.
  intros Hreach H Hrole.
  destruct (reachable_invariants db Hreach)
    as [(_ & _ & Hpi & Hci & _) [Hcp _]].
  unfold list_consultations. as_caller H. rewrite Hrole.
  change (String.eqb "doctor" "sales") with false. rewrite String.eqb_refl.
  eexists. split; [reflexivity|].
  intros c phone Hin.
  pose proof (first_unique Consultation.id _ _ Hci Hin) as Hc.
  destruct (Hcp c Hin) as [p0 Hp0].
  assert (Hshare :
    fst (share_message now creds
           {| consultation_id := Consultation.id c; phone_e164 := phone |} db)
    = if opt_neq (Patient.assigned_doctor_email p0) (User.email u)
      then Raise (HTTPException 403 "Not allowed to share this consultation")
      else Ok {| message :=
                   "Hello " ++ Patient.name p0
                   ++ ", your video consultation is scheduled." ++ newline
                   ++ link_mark ++ " Link: " ++ Consultation.video_url c
                   ++ newline
                   ++ doctor_mark ++ " Doctor: "
                   ++ or_default (Patient.assigned_doctor_email p0) "TBD"
                   ++ newline
                   ++ time_mark ++ " Time: " ++ when_str c ++ newline
                   ++ sent_mark ++ " Sent by " ++ User.email u |}).
  { unfold share_message. as_caller H. rewrite bind_query.
    cbn [consultation_id]. unfold consultation_by_id. rewrite Hc.
    cbv beta iota. rewrite bind_query. rewrite Hp0. cbv beta iota.
    rewrite Hrole, String.eqb_refl. cbn [andb].
    destruct (opt_neq _ _); reflexivity. }
  rewrite Hshare. split.
  - intros Hl.
    apply (Permutation_in _ (order_by_desc_perm Consultation.id _)) in Hl.
    apply joined_assigned_in in Hl. destruct Hl as [_ [p [Hp [Hid Ha]]]].
    pose proof (first_unique Patient.id _ _ Hpi Hp) as Hfp.
    rewrite Hid in Hfp. unfold patient_by_id in Hp0.
    rewrite Hfp in Hp0. injection Hp0 as <-.
    rewrite Ha. cbn [opt_neq]. rewrite String.eqb_refl. cbn [negb].
    eexists. reflexivity.
  - intros [m Hm].
    apply (Permutation_in _
             (Permutation_sym (order_by_desc_perm Consultation.id _))).
    apply joined_assigned_in. split; [exact Hin|].
    exists p0. split; [apply (first_in _ _ _ Hp0)|].
    split; [apply (patient_by_id_id _ _ _ Hp0)|].
    destruct (Patient.assigned_doctor_email p0) as [e|];
      cbn [opt_neq] in Hm; [|discriminate].
    destruct (String.eqb_spec e (User.email u)) as [->|E];
      [reflexivity | discriminate].
Qed.


(** ** The encoded text and the token claims *)

Lemma quote_byte_safe (c x : ascii) :
  In x (list_ascii_of_string (Py.quote_byte c)) ->
  Py.always_safe x = true \/ x = "+"%char \/ x = "%"%char.
Proof.
  destruct c as [[] [] [] [] [] [] [] []]; cbn;
    intros H; repeat (destruct H as [<-|H]; [auto|]); destruct H.
Qed.

Lemma in_string_app (a b : string) (x : ascii) :
  In x (list_ascii_of_string (a ++ b)) ->
  In x (list_ascii_of_string a) \/ In x (list_ascii_of_string b).
Proof.
  induction a as [|c r IH]; cbn [append list_ascii_of_string In]; [auto|].
  intros [->|H]; [auto|]. destruct (IH H); auto.
Qed.

(** The text [quote_plus] produces is made of letters, digits,
    [_ . - ~], [+] and [%] only. *)
Lemma quote_plus_chars (s : string) (x : ascii) :
  In x (list_ascii_of_string (Py.quote_plus s)) ->
  Py.always_safe x = true \/ x = "+"%char \/ x = "%"%char.
Proof.
  induction s as [|c r IH]; cbn [Py.quote_plus]; [intros []|].
  intros H. apply in_string_app in H. destruct H as [H|H].
  - apply (quote_byte_safe c x H).
  - apply IH, H.
Qed.

(** X18 -- a link returned by [whatsapp_link] is well formed: it is
    [https://wa.me/], a non-empty phone number, [?text=] and a text made
    of letters, digits, [_ . - ~], [+] and [%] only, so no space, line
    break, [&] or [#] of a patient name or address reaches the link
    unencoded; and returning it writes nothing. *)
Theorem whatsapp_link_well_formed now creds payload db r :
  fst (whatsapp_link now creds payload db) = Ok r ->
  snd (whatsapp_link now creds payload db) = db
  /\ exists phone text,
       wa_link r = "https://wa.me/" ++ phone ++ "?text=" ++ text
       /\ phone <> ""
       /\ (forall x, In x (list_ascii_of_string text) ->
             Py.always_safe x = true \/ x = "+"%char \/ x = "%"%char).
Proof.
  intros Hrun. split; [apply whatsapp_link_db|].
  revert Hrun. unfold whatsapp_link. rewrite bind_caller_cases.
  destruct (fst (get_current_user now creds db)) as [u|e]; [|discriminate].
  rewrite bind_query.
  destruct (consultation_by_id _ db) as [c|]; [|discriminate].
  rewrite bind_query.
  destruct (patient_by_id _ db) as [p|]; [|discriminate].
  destruct (_ && _)%bool; [discriminate|]. cbv zeta.
  match goal with
  | |- fst (match ?x with _ => _ end _) = _ -> _ => destruct x as [ph|]
  end; [|discriminate].
  destruct (Py.truthy ph) eqn:Hph; cbn [negb]; [|discriminate].
  unfold ret. cbn [fst]. intros [= <-]. cbn [wa_link].
  exists ph, (Py.quote_plus (whatsapp_text c p)).
  split; [reflexivity|]. split.
  - apply truthy_true, Hph.
  - intros x. apply quote_plus_chars.
Qed.

Lemma dict_get_update_same {V} (k : string) (v : V) (d : list (string * V)) :
  dict_get k (dict_update k v d) = Some v.
Proof.
  induction d as [|[k' v'] r IH]; cbn [dict_update dict_get].
  - rewrite String.eqb_refl. reflexivity.
  - destruct (String.eqb k' k) eqn:E; cbn [dict_get].
    + rewrite String.eqb_refl. reflexivity.
    + rewrite E. exact IH.
Qed.

Lemma dict_get_update_other {V} (k k0 : string) (v : V)
  (d : list (string * V)) :
  k0 <> k -> dict_get k0 (dict_update k v d) = dict_get k0 d.
Proof.
  intros Hne. induction d as [|[k' v'] r IH]; cbn [dict_update dict_get].
  - apply String.eqb_neq in Hne. rewrite String.eqb_sym, Hne. reflexivity.
  - destruct (String.eqb_spec k' k) as [->|E]; cbn [dict_get].
    + apply String.eqb_neq in Hne. rewrite String.eqb_sym, Hne. reflexivity.
    + rewrite IH. reflexivity.
Qed.

(** X19 -- the token [create_access_token] signs carries the given claims
    with [exp] set, or replaced, to the time of issue plus the given
    validity, an absent or zero validity meaning 60 minutes; it is signed
    with the module's key and algorithm. *)
Theorem create_access_token_claims now data delta :
  exists claims,
    create_access_token now data delta = jwt_encode claims SECRET_KEY ALGORITHM
    /\ dict_get "exp" claims
       = Some (CTime (now + match delta with
                            | Some d => if d =? 0 then 3600 else d
                            | None => 3600
                            end))
    /\ (forall k, k <> "exp" -> dict_get k claims = dict_get k data).
Proof.
  unfold create_access_token. cbv zeta.
  eexists. split; [reflexivity|]. split.
  - rewrite dict_get_update_same. reflexivity.
  - intros k Hk. apply dict_get_update_other, Hk.
Qed.

(** X20 -- whenever the patient list is returned, for a sales caller or a
    doctor, it is ordered by descending id and holds stored patients
    only. *)
Theorem list_patients_sorted now creds db l :
  fst (list_patients now creds db) = Ok l ->
  StronglySorted (fun a b => Patient.id b <= Patient.id a) l
  /\ (forall p, In p l -> In p (patients db)).
Proof.
  unfold list_patients. rewrite bind_caller_cases.
  destruct (fst (get_current_user now creds db)) as [u|e]; [|discriminate].
  destruct (String.eqb (User.role u) "sales").
  - cbn. intros [= <-]. split; [apply order_by_desc_sorted|].
    intros p Hp. apply (Permutation_in _ (order_by_desc_perm _ _) Hp).
  - destruct (String.eqb (User.role u) "doctor"); [|discriminate].
    cbn. intros [= <-]. split; [apply order_by_desc_sorted|].
    intros p Hp. apply (Permutation_in _ (order_by_desc_perm _ _)) in Hp.
    apply filter_In in Hp. apply Hp.
Qed.

End Handlers.

(** ** The handlers on the sample database *)

(** C1 -- the three handlers on an existing consultation refuse only a
    doctor who is not the assigned one.  The administrator of the sample
    database is neither a sales user nor the assigned doctor, and yet
    receives the shared message and the WhatsApp link and changes the
    status of the consultation; none of the three answers 403. *)
Theorem admin_shares_and_updates :
  fst (get_current_user Sample.jwt_decode 0 (Sample.bearer "adm@x.org")
         Sample.db) = Ok Sample.adm
  /\ User.role Sample.adm = "admin"
  /\ consultation_by_id 1 Sample.db = Some Sample.con
  /\ patient_by_id (Consultation.patient_id Sample.con) Sample.db
     = Some Sample.pat
  /\ ~ policy_permits Sample.adm Sample.pat
  /\ (exists m,
        share_message Sample.jwt_decode Sample.isoformat 0
          (Sample.bearer "adm@x.org") Sample.share_con Sample.db
        = (Ok m, Sample.db))
  /\ whatsapp_link Sample.jwt_decode Sample.isoformat 0
       (Sample.bearer "adm@x.org") Sample.share_con Sample.db
     = (Ok {| wa_link :=
                "https://wa.me/919876543210?text="
                ++ Py.quote_plus
                     (whatsapp_text Sample.isoformat Sample.con Sample.pat) |},
        Sample.db)
  /\ update_consultation Sample.jwt_decode 0 (Sample.bearer "adm@x.org")
       1 None (Some "completed") Sample.db
     = (Ok (Consultation.set_status (Some "completed") Sample.con),
        mkDB (users Sample.db) (patients Sample.db)
             [Consultation.set_status (Some "completed") Sample.con]).
Proof.
  repeat split; try reflexivity.
  - intros [Hs|[Hd _]]; discriminate.
  - eexists. reflexivity.
Qed.

Lemma list_patients_visibility_witness :
  exists l,
    list_patients Sample.jwt_decode 0 (Sample.bearer "doc@x.org") Sample.db
    = (Ok l, Sample.db)
    /\ (forall p, In p l <->
          In p (patients Sample.db)
          /\ Patient.assigned_doctor_email p = Some "doc@x.org").
Proof.
  apply (list_patients_visibility Sample.jwt_decode 0
           (Sample.bearer "doc@x.org") Sample.db Sample.doc).
  - reflexivity.
  - reflexivity.
Defined.

Lemma list_users_any_role_witness :
  exists l,
    list_users Sample.jwt_decode 0 (Some "doctor") (Sample.bearer "adm@x.org")
      Sample.db = (Ok l, Sample.db)
    /\ StronglySorted (fun a b => User.id b <= User.id a) l
    /\ Permutation l [Sample.doc].
Proof.
  destruct (list_users_any_role Sample.jwt_decode 0 (Some "doctor")
              (Sample.bearer "adm@x.org") Sample.db Sample.adm eq_refl)
    as [l [Hrun [Hsorted [_ Hrole]]]].
  exists l. split; [exact Hrun|]. split; [exact Hsorted|].
  apply (Hrole "doctor" eq_refl). discriminate.
Defined.



Lemma whatsapp_link_phone_witness :
  whatsapp_link Sample.jwt_decode Sample.isoformat 0
    (Sample.bearer "sal@x.org") Sample.share_con Sample.db
  = (Ok {| wa_link :=
             "https://wa.me/919876543210?text="
             ++ Py.quote_plus
                  (whatsapp_text Sample.isoformat Sample.con Sample.pat) |},
     Sample.db).
Proof.
  apply (whatsapp_link_phone Sample.jwt_decode Sample.isoformat 0
           (Sample.bearer "sal@x.org") Sample.share_con Sample.db
           Sample.sal Sample.con Sample.pat).
  - reflexivity.
  - reflexivity.
  - reflexivity.
  - left. reflexivity.
  - left. reflexivity.
  - reflexivity.
Defined.



Lemma assignments_valid_reachable_witness : assignments_valid Sample.db.
Proof.
  apply (assignments_valid_reachable Sample.hash_password
           Sample.verify_password Sample.jwt_encode Sample.jwt_decode
           Sample.isoformat Sample.db).
  set (step := serve Sample.hash_password Sample.verify_password
                 Sample.jwt_encode Sample.jwt_decode Sample.isoformat 0).
  change Sample.db with
    (step (ReqScheduleConsultation "abc" (Sample.bearer "doc@x.org")
             Sample.sched_pat)
    (step (ReqAssignPatient (Sample.bearer "sal@x.org") Sample.assign_pat)
    (step (ReqCreatePatient (Sample.bearer "sal@x.org") Sample.new_pat)
    (step (ReqRegister "s" Sample.reg_adm)
    (step (ReqRegister "s" Sample.reg_doc)
    (step (ReqRegister "s" Sample.reg_sal) empty_db)))))).
  unfold step. repeat apply reachable_serve. apply reachable_empty.
Defined.

(** ** The string operations on examples *)

Example normalize_email_example :
  normalize_email "  Sal@X.org " = "sal@x.org".
Proof. reflexivity. Qed.

Example split_example :
  last (Py.split "Bearer  Bearer abc ") "" = "abc".
Proof. reflexivity. Qed.

Example quote_plus_example :
  Py.quote_plus ("Link: https://meet.jit.si/a-b_c" ++ newline ++ "Time: Now")
  = "Link%3A+https%3A%2F%2Fmeet.jit.si%2Fa-b_c%0ATime%3A+Now".
Proof. reflexivity. Qed.

Example get_current_user_example :
  fst (get_current_user Sample.jwt_decode 0
         (Some {| scheme := "Bearer";
                  credentials := " Bearer  tok:doc@x.org " |})
         Sample.db) = Ok Sample.doc
  /\ fst (get_current_user Sample.jwt_decode 0 (Sample.bearer "gone@x.org")
            Sample.db) = Raise (HTTPException 401 "User not found")
  /\ fst (get_current_user Sample.jwt_decode 0 None Sample.db)
     = Raise (HTTPException 401 "Missing or invalid token").
Proof. repeat split; reflexivity. Qed.

Example admin_cannot_schedule :
  schedule_consultation Sample.jwt_decode 0 "xyz" (Sample.bearer "adm@x.org")
    Sample.sched_pat Sample.db
  = (Raise (HTTPException 403 "Not allowed to schedule consultations"),
     Sample.db).
Proof. reflexivity. Qed.

(** ** The further properties on the sample database *)

Lemma sample_reachable :
  reachable Sample.hash_password Sample.verify_password Sample.jwt_encode
    Sample.jwt_decode Sample.isoformat Sample.db.
Proof.
  set (step := serve Sample.hash_password Sample.verify_password
                 Sample.jwt_encode Sample.jwt_decode Sample.isoformat 0).
  change Sample.db with
    (step (ReqScheduleConsultation "abc" (Sample.bearer "doc@x.org")
             Sample.sched_pat)
    (step (ReqAssignPatient (Sample.bearer "sal@x.org") Sample.assign_pat)
    (step (ReqCreatePatient (Sample.bearer "sal@x.org") Sample.new_pat)
    (step (ReqRegister "s" Sample.reg_adm)
    (step (ReqRegister "s" Sample.reg_doc)
    (step (ReqRegister "s" Sample.reg_sal) empty_db)))))).
  unfold step. repeat apply reachable_serve. apply reachable_empty.
Qed.




Lemma login_then_authenticate_witness :
  get_current_user Sample.jwt_decode 9
    (Some {| scheme := "Bearer"; credentials := "Bearer tok:doc@x.org" |})
    Sample.db
  = (Ok Sample.doc, Sample.db).
Proof.
  apply (login_then_authenticate Sample.verify_password Sample.jwt_encode
           Sample.jwt_decode 0 9
           {| lr_email := "doc@x.org"; lr_password := "secret2" |}
           Sample.db
           {| access_token := "tok:doc@x.org"; token_type := "bearer";
              authorization := "Bearer tok:doc@x.org" |}
           Sample.doc "Bearer" [("sub", "doc@x.org")]);
    try reflexivity; discriminate.
Defined.


Lemma assign_patient_then_listed_witness :
  exists l,
    list_patients Sample.jwt_decode 3 (Sample.bearer "doc@x.org")
      (snd (assign_patient Sample.jwt_decode 0 (Sample.bearer "sal@x.org")
              Sample.assign_pat Sample.db))
    = (Ok l,
       snd (assign_patient Sample.jwt_decode 0 (Sample.bearer "sal@x.org")
              Sample.assign_pat Sample.db))
    /\ In Sample.pat l.
Proof.
  destruct (assign_patient_then_listed Sample.jwt_decode 0
              (Sample.bearer "sal@x.org") Sample.assign_pat Sample.db
              Sample.sal Sample.pat Sample.doc 3 (Sample.bearer "doc@x.org")
              eq_refl eq_refl eq_refl eq_refl eq_refl eq_refl)
    as [Hrun [_ [_ [_ [l [Hl Hin]]]]]].
  exists l. rewrite Hrun. split; [exact Hl | exact Hin].
Defined.


Lemma schedule_consultation_created_witness :
  exists c,
    schedule_consultation Sample.jwt_decode 0 "xyz"
      (Sample.bearer "doc@x.org") Sample.sched_pat Sample.db
    = (Ok c, mkDB (users Sample.db) (patients Sample.db)
                  (consultations Sample.db ++ [c])%list)
    /\ Consultation.video_url c = "https://meet.jit.si/Prakvedaa-xyz"
    /\ Consultation.status c = Some "pending".
Proof.
  destruct (schedule_consultation_created Sample.jwt_decode 0 "xyz"
              (Sample.bearer "doc@x.org") Sample.sched_pat Sample.db
              Sample.doc Sample.pat eq_refl eq_refl
              (or_intror (conj eq_refl eq_refl)))
    as [c [Hrun [_ [Hurl [Hstatus _]]]]].
  exists c. split; [exact Hrun|]. split; [exact Hurl | exact Hstatus].
Defined.

Lemma list_consultations_visibility_witness :
  exists l,
    list_consultations Sample.jwt_decode 0 (Sample.bearer "sal@x.org")
      Sample.db = (Ok l, Sample.db)
    /\ Permutation l (consultations Sample.db).
Proof.
  destruct (proj1 (list_consultations_visibility Sample.jwt_decode 0
                     (Sample.bearer "sal@x.org") Sample.db Sample.sal
                     eq_refl) eq_refl)
    as [l [Hrun [Hperm _]]].
  exists l. split; [exact Hrun | exact Hperm].
Defined.

Lemma update_consultation_frame_witness :
  exists c,
    consultation_by_id 1 Sample.db = Some c
    /\ Consultation.video_url
         (Consultation.set_status (Some "completed") Sample.con)
       = Consultation.video_url c.
Proof.
  destruct (update_consultation_frame Sample.jwt_decode 0
              (Sample.bearer "doc@x.org") 1 None (Some "Completed")
              Sample.db
              (Consultation.set_status (Some "completed") Sample.con)
              eq_refl)
    as [c [Hc [_ [_ [Hurl _]]]]].
  exists c. split; [exact Hc | exact Hurl].
Defined.


Lemma reachable_keys_unique_witness :
  patient_by_id (Patient.id Sample.pat) Sample.db = Some Sample.pat.
Proof.
  apply (reachable_keys_unique Sample.hash_password Sample.verify_password
           Sample.jwt_encode Sample.jwt_decode Sample.isoformat Sample.db
           sample_reachable).
  left. reflexivity.
Defined.

Lemma reachable_references_resolve_witness : references_resolve Sample.db.
Proof.
  apply (reachable_references_resolve Sample.hash_password
           Sample.verify_password Sample.jwt_encode Sample.jwt_decode
           Sample.isoformat Sample.db sample_reachable).
Defined.


Lemma doctor_shares_what_is_listed_witness :
  exists l,
    list_consultations Sample.jwt_decode 0 (Sample.bearer "doc@x.org")
      Sample.db = (Ok l, Sample.db)
    /\ (In Sample.con l <->
        exists m,
          fst (share_message Sample.jwt_decode Sample.isoformat 0
                 (Sample.bearer "doc@x.org") Sample.share_con Sample.db)
          = Ok m).
Proof.
  destruct (doctor_shares_what_is_listed Sample.hash_password
              Sample.verify_password Sample.jwt_encode Sample.jwt_decode
              Sample.isoformat 0 (Sample.bearer "doc@x.org") Sample.db
              Sample.doc sample_reachable eq_refl eq_refl)
    as [l [Hrun Hiff]].
  exists l. split; [exact Hrun|].
  apply (Hiff Sample.con None). left. reflexivity.
Defined.

Lemma whatsapp_link_well_formed_witness :
  exists phone text,
    "https://wa.me/919876543210?text="
    ++ Py.quote_plus (whatsapp_text Sample.isoformat Sample.con Sample.pat)
    = "https://wa.me/" ++ phone ++ "?text=" ++ text
    /\ phone <> ""
    /\ (forall x, In x (list_ascii_of_string text) ->
          Py.always_safe x = true \/ x = "+"%char \/ x = "%"%char).
Proof.
  apply (whatsapp_link_well_formed Sample.jwt_decode Sample.isoformat 0
           (Sample.bearer "sal@x.org") Sample.share_con Sample.db
           {| wa_link :=
                "https://wa.me/919876543210?text="
                ++ Py.quote_plus
                     (whatsapp_text Sample.isoformat Sample.con Sample.pat) |}).
  reflexivity.
Defined.

Lemma list_patients_sorted_witness :
  StronglySorted (fun a b => Patient.id b <= Patient.id a) [Sample.pat]
  /\ (forall p, In p [Sample.pat] -> In p (patients Sample.db)).
Proof.
  apply (list_patients_sorted Sample.jwt_decode 0 (Sample.bearer "doc@x.org")
           Sample.db [Sample.pat]).
  reflexivity.
Defined.
